(** * Law Study Buddy: the query handler, the lazy store loader and the
    index-build driver

    A shallow embedding of [streamlit_app.py] and [prebuild.py].  The two
    scripts are glue around the module [RagFullPipeline], which the
    repository does not ship next to them: its entry points are oracles of a
    [World] record here, and the parts the properties speak about
    ([EmbeddingManager.embed], [VectorStore.search], the retriever and
    [rag_advanced]) are modelled from the design document in the module
    [RagFullPipeline] below.

    Conventions.
    - A Python [str] is the list of its Unicode code points.
    - A Python [float] is modelled by the rational it denotes: the sources
      only compare floats and write the literals [0.8], [0.3], [0.0], [1.0].
    - A call that may raise returns a [result]; [except Exception] catches
      the instances of [Exception] and lets [SystemExit] and
      [KeyboardInterrupt] through.
    - An instance of a class of [RagFullPipeline] is true in a test such as
      [if vectorstore:]: the classes are taken to define neither [__bool__]
      nor [__len__] (the scripts ask [collection.count()] for the size).  A
      falsy value, where a call may return one, is [None].
    - Streamlit calls and [print] are recorded as a trace of [event]s. *)

From Stdlib Require Import String Ascii List ZArith NArith QArith Bool Lia.
From Stdlib Require Import DecimalString Sorted.
Import ListNotations.

Local Open Scope Z_scope.

(* ================================================================== *)
(** ** Python text *)

Module Py.

(** A [str]: the sequence of its code points. *)
Definition str := list N.

(** The UTF-8 decoding of a byte string.  The source files are UTF-8, so the
    literals of the scripts, emoji included, are written as they stand and
    decoded to the code points Python sees. *)
Fixpoint utf8_decode (bs : list N) : str :=
  let cont b := N.land b 63 in
  match bs with
  | [] => []
  | b0 :: t0 =>
    if (b0 <? 128)%N then b0 :: utf8_decode t0
    else
      match t0 with
      | [] => [b0]
      | b1 :: t1 =>
        if (b0 <? 224)%N then
          N.lor (N.shiftl (N.land b0 31) 6) (cont b1) :: utf8_decode t1
        else
          match t1 with
          | [] => [b0; b1]
          | b2 :: t2 =>
            if (b0 <? 240)%N then
              N.lor (N.shiftl (N.land b0 15) 12)
                (N.lor (N.shiftl (cont b1) 6) (cont b2)) :: utf8_decode t2
            else
              match t2 with
              | [] => [b0; b1; b2]
              | b3 :: t3 =>
                N.lor (N.shiftl (N.land b0 7) 18)
                  (N.lor (N.shiftl (cont b1) 12)
                     (N.lor (N.shiftl (cont b2) 6) (cont b3)))
                  :: utf8_decode t3
              end
          end
      end
  end.

(** A string literal of the source. *)
Definition lit (s : string) : str :=
  utf8_decode (map N_of_ascii (list_ascii_of_string s)).

(** [str(n)] for an [int]. *)
Definition str_of_int (z : Z) : str :=
  lit (NilZero.string_of_int (Z.to_int z)).

(** [c.isspace()] for a single character: the code points CPython lists in
    [_PyUnicode_IsWhitespace]. *)
Definition isspace (c : N) : bool :=
  ((9 <=? c) && (c <=? 13) || (28 <=? c) && (c <=? 32)
   || (c =? 133) || (c =? 160) || (c =? 5760)
   || (8192 <=? c) && (c <=? 8202)
   || (c =? 8232) || (c =? 8233) || (c =? 8239) || (c =? 8287)
   || (c =? 12288))%N.

(** [s.lstrip()], [s.rstrip()] and [s.strip()] without argument. *)
Fixpoint lstrip (s : str) : str :=
  match s with
  | [] => []
  | c :: t => if isspace c then lstrip t else s
  end.

Definition rstrip (s : str) : str := rev (lstrip (rev s)).

Definition strip (s : str) : str := rstrip (lstrip s).

(** Truth value of a [str]: non-empty. *)
Definition truthy_str (s : str) : bool :=
  match s with [] => false | _ => true end.

(** *** Exceptions *)

(** What a call can raise.  [Error cls msg] is an instance of a subclass
    [cls] of [Exception] with [str(e) = msg]; the other two derive from
    [BaseException] only. *)
Inductive exc : Type :=
| Error (cls : string) (msg : str)
| SystemExit (code : Z)
| KeyboardInterrupt.

(** [isinstance(e, Exception)]. *)
Definition is_Exception (e : exc) : bool :=
  match e with
  | Error _ _ => true
  | SystemExit _ | KeyboardInterrupt => false
  end.

(** [str(e)]. *)
Definition exc_str (e : exc) : str :=
  match e with
  | Error _ msg => msg
  | SystemExit code => str_of_int code
  | KeyboardInterrupt => []
  end.

(** Outcome of an expression or call. *)
Inductive result (A : Type) : Type :=
| Ok (a : A)
| Raise (e : exc).
Arguments Ok {A} a.
Arguments Raise {A} e.

(** The exit status the interpreter gives the process when the main module
    ends with this outcome: 0 on a normal end, the code of [sys.exit], 1 for
    an uncaught error and 130 for an interrupt.  The code of [sys.exit] is
    the status as it stands for a code from 0 to 255 only (the system keeps
    the low eight bits), and 130 is what a shell reports for the death by
    SIGINT that an uncaught interrupt ends in. *)
Definition exit_status {A} (r : result A) : Z :=
  match r with
  | Ok _ => 0
  | Raise (SystemExit code) => code
  | Raise (Error _ _) => 1
  | Raise KeyboardInterrupt => 130
  end.

(** [sys.exit(code)]. *)
Definition sys_exit {A} (code : Z) : result A := Raise (SystemExit code).

(** *** The pure error monad *)

Definition rbind {A B} (r : result A) (k : A -> result B) : result B :=
  match r with
  | Ok a => k a
  | Raise e => Raise e
  end.

(** [try: body / except Exception as e: handler e]. *)
Definition rtry {A} (body : result A) (handler : exc -> result A) : result A :=
  match body with
  | Ok a => Ok a
  | Raise e => if is_Exception e then handler e else Raise e
  end.

End Py.

Import Py.

Arguments lit : simpl never.
Arguments str_of_int : simpl never.

Declare Scope py_scope.
Delimit Scope py_scope with py.
Notation "x <- c ;; k" := (rbind c (fun x => k))
  (at level 61, c at next level, right associativity) : py_scope.
Notation "c ;; k" := (rbind c (fun _ => k))
  (at level 61, right associativity) : py_scope.

(* ================================================================== *)
(** ** Data model *)

(** A stored chunk of a legal document with its embedding. *)
Record DocumentChunk : Type := {
  id : str;
  text : str;
  source_name : str;
  chunk_page : option Z;
  embedding : list Q
}.

(** The objects of [RagFullPipeline] the scripts hold on to. *)
Record LLM : Type := { model_name : str }.

Record EmbeddingManager : Type := {
  model_version : str;
  model : str -> list Q
}.

Record VectorStore : Type := {
  persist_directory : str;
  collection : list DocumentChunk
}.

(** [RagRetriever(vectorstore, embedding_manager)]. *)
Record RagRetriever : Type := {
  vector_store : VectorStore;
  manager : EmbeddingManager
}.

(** An entry of [result["sources"]]: the script reads the keys ['source'],
    ['score'], ['preview'] and, when present, ['page'].  [page = None] is
    an entry without the key ['page']; an entry that stores [None] under
    the key is not represented. *)
Record ScoredSource : Type := {
  source : str;
  page : option Z;
  preview : str;
  score : Q
}.

(** The [result] dictionary of the query handler. *)
Record QueryResult : Type := {
  answer : str;
  sources : list ScoredSource;
  confidence : Q
}.

(** The object [llm.invoke] returns; the script reads [.content]. *)
Record Response : Type := { content : str }.

(** [st.session_state].  The two flags are given their defaults by
    [setdefault] at the top of the script; an absent key is [None]. *)
Record session : Type := {
  rag_initialized : bool;
  vector_store_ready : bool;
  llm : option LLM;
  embedding_manager : option EmbeddingManager;
  vectorstore : option VectorStore;
  retriever : option RagRetriever
}.

(** The session of a browser tab that has not run the script yet. *)
Definition fresh_session : session :=
  {| rag_initialized := false; vector_store_ready := false;
     llm := None; embedding_manager := None;
     vectorstore := None; retriever := None |}.

(** What the user has set on the page when the script runs: the two
    sliders, the text area and the primary button. *)
Record UI : Type := {
  top_k : Z;
  min_score : Q;
  query : str;
  get_legal_answer : bool
}.

(** *** The trace *)

(** A piece of displayed text; a float put through a format specification
    stays symbolic. *)
Inductive piece : Type :=
| Txt (s : str)
| Fmt (format_spec : string) (x : Q).

Inductive event : Type :=
| st_header (body : str)
| st_subheader (body : str)
| st_spinner (body : str)
| st_success (body : str)
| st_error (body : str)
| st_info (body : str)
| st_markdown (body : str)
| st_write (body : str)
| st_metric (label : str) (value : list piece)
| st_expander (label : list piece)
| print (line : list piece)
(** [llm.invoke(prompt)] is entered *)
| invoke (l : LLM) (prompt : str)
(** [rag_advanced(...)] is entered *)
| call_rag_advanced (q : str) (r : RagRetriever) (l : LLM)
    (k : Z) (threshold : Q) (return_context : bool).

(** *** The collaborators *)

(** Everything the scripts call and do not define. *)
Record World : Type := {
  (** [from RagFullPipeline import names] *)
  import_from : list string -> result unit;
  (** [initialize_llm()]; [None] stands for a falsy return value *)
  initialize_llm : result (option LLM);
  (** [EmbeddingManager()] *)
  new_EmbeddingManager : result EmbeddingManager;
  (** [os.path.exists(path)] *)
  path_exists : str -> bool;
  (** [VectorStore(persist_directory=, use_persistent=, pdf_folder=)] *)
  new_VectorStore : str -> bool -> option str -> result VectorStore;
  (** [vectorstore.collection.count()] *)
  collection_count : VectorStore -> result Z;
  (** [rag_advanced(query=, retriever=, llm=, top_k=, min_score=,
      return_context=)] *)
  rag_advanced :
    str -> RagRetriever -> LLM -> Z -> Q -> bool -> result QueryResult;
  (** [llm.invoke(prompt)] *)
  llm_invoke : LLM -> str -> result Response;
  (** the value of the n-th call of [time.time()] *)
  clock : nat -> Q
}.

(* ================================================================== *)
(** ** The script monad: a state, a trace, an outcome *)

Definition M (S A : Type) : Type := S -> S * list event * result A.

Definition ret {S A} (a : A) : M S A := fun s => (s, [], Ok a).

Definition bind {S A B} (m : M S A) (k : A -> M S B) : M S B :=
  fun s =>
    let '(s1, t1, r) := m s in
    match r with
    | Ok a => let '(s2, t2, r2) := k a s1 in (s2, t1 ++ t2, r2)
    | Raise e => (s1, t1, Raise e)
    end.

Definition lift {S A} (r : result A) : M S A := fun s => (s, [], r).

Definition emit {S} (e : event) : M S unit := fun s => (s, [e], Ok tt).

Definition get {S} : M S S := fun s => (s, [], Ok s).

Definition modify {S} (f : S -> S) : M S unit := fun s => (f s, [], Ok tt).

(** [try: body / except Exception as e: handler e].  What the body did to
    the state and the trace before it raised stays done. *)
Definition mtry {S A} (body : M S A) (handler : exc -> M S A) : M S A :=
  fun s =>
    let '(s1, t1, r) := body s in
    match r with
    | Ok a => (s1, t1, Ok a)
    | Raise e =>
      if is_Exception e then
        let '(s2, t2, r2) := handler e s1 in (s2, t1 ++ t2, r2)
      else (s1, t1, Raise e)
    end.

Declare Scope st_scope.
Delimit Scope st_scope with st.
Notation "x <- c ;; k" := (bind c (fun x => k))
  (at level 61, c at next level, right associativity) : st_scope.
Notation "c ;; k" := (bind c (fun _ => k))
  (at level 61, right associativity) : st_scope.

(* ================================================================== *)
(** ** streamlit_app.py *)

Module StreamlitApp.

Local Open Scope list_scope.

(** The [try] suite of [initialize_minimal_rag()]: lines 48 to 58. *)
Definition initialize_minimal_rag_try (w : World)
  : result (option LLM * option EmbeddingManager * option str) :=
  (import_from w ["initialize_llm"; "EmbeddingManager"]%string ;;
   l <- initialize_llm w ;;
   match l with
   | None => Ok (None, None, None)
   | Some l' =>
     em <- new_EmbeddingManager w ;;
     Ok (Some l', Some em, Some (lit "Components loaded"))
   end)%py.

(** [initialize_minimal_rag()]: the triple [(llm, embedding_manager,
    status)]. *)
Definition initialize_minimal_rag (w : World)
  : result (option LLM * option EmbeddingManager * option str) :=
  rtry (initialize_minimal_rag_try w)
       (fun e => Ok (None, None, Some (exc_str e))).

Definition persist_dir : str := lit "./prebuilt_vector_store".

(** The [try] suite of [load_vector_store_lazy()]: lines 67 to 81.  The
    store is opened with [pdf_folder=None]; nothing looks at how many
    documents it holds except to print the number. *)
Definition load_vector_store_lazy_try (w : World)
  : result (option VectorStore * str) :=
  (import_from w ["VectorStore"; "RagRetriever"]%string ;;
   if negb (path_exists w persist_dir) then
     Ok (None, lit "No legal database available")
   else
     vs <- new_VectorStore w persist_dir true None ;;
     n <- collection_count w vs ;;
     Ok (Some vs, lit "Ready with " ++ str_of_int n ++ lit " documents"))%py.

(** [load_vector_store_lazy()]: the pair [(vectorstore, status)]. *)
Definition load_vector_store_lazy (w : World)
  : result (option VectorStore * str) :=
  rtry (load_vector_store_lazy_try w)
       (fun e => Ok (None, lit "Database error: " ++ exc_str e)).

(** The names bound in the module namespace when the sidebar block runs:
    the four imports of the head of the file, [load_dotenv], the two
    functions, and the variables the block itself assigns.  The imports
    inside the two functions bind names local to the functions. *)
Definition module_globals : list string :=
  ["st"; "os"; "traceback"; "time"; "load_dotenv";
   "initialize_minimal_rag"; "load_vector_store_lazy";
   "llm"; "embedding_manager"; "status_msg";
   "vectorstore"; "vector_status"]%string.

(** Evaluation of a global name that is not a builtin. *)
Definition global_name (name : string) : result unit :=
  if existsb (String.eqb name) module_globals then Ok tt
  else Raise (Error "NameError"
                (lit "name '" ++ lit name ++ lit "' is not defined")).

(** [st.session_state.key] for a key that may be absent.  The text of
    Streamlit's message is not modelled; the key stands for it. *)
Definition session_attr {A} (key : string) (v : option A) : result A :=
  match v with
  | Some a => Ok a
  | None => Raise (Error "AttributeError" (lit key))
  end.

(** The session after lines 95 to 97: the components are kept and the
    system is marked as initialised. *)
Definition keep_components (l : LLM) (em : EmbeddingManager) (s : session)
  : session :=
  {| rag_initialized := true;
     vector_store_ready := vector_store_ready s;
     llm := Some l; embedding_manager := Some em;
     vectorstore := vectorstore s; retriever := retriever s |}.

(** The session after line 106: the opened store is kept. *)
Definition keep_store (vs : VectorStore) (s : session) : session :=
  {| rag_initialized := rag_initialized s;
     vector_store_ready := vector_store_ready s;
     llm := llm s; embedding_manager := embedding_manager s;
     vectorstore := Some vs; retriever := retriever s |}.

(** The session after lines 107 and 108: the retriever is attached and the
    store is marked as ready. *)
Definition keep_retriever (rr : RagRetriever) (s : session) : session :=
  {| rag_initialized := rag_initialized s;
     vector_store_ready := true;
     llm := llm s; embedding_manager := embedding_manager s;
     vectorstore := vectorstore s; retriever := Some rr |}.

(** The first sidebar block, "System Status": lines 88 to 112.  On line 107
    the name [RagRetriever] is evaluated first, then its arguments. *)
Definition sidebar_status (w : World) : M session unit :=
  (emit (st_header (lit "📊 System Status")) ;;
   s <- get ;;
   (if negb (rag_initialized s) then
      emit (st_spinner (lit "Loading AI components...")) ;;
      r <- lift (initialize_minimal_rag w) ;;
      match r with
      | (Some l, Some em, _) =>
        modify (keep_components l em) ;;
        emit (st_success (lit "✅ AI System Ready"))
      | _ => emit (st_error (lit "❌ System initialization failed"))
      end
    else ret tt) ;;
   s <- get ;;
   if rag_initialized s && negb (vector_store_ready s) then
     emit (st_spinner (lit "Loading legal database...")) ;;
     r <- lift (load_vector_store_lazy w) ;;
     match r with
     | (Some vs, _) =>
       modify (keep_store vs) ;;
       lift (global_name "RagRetriever") ;;
       s <- get ;;
       em <- lift (session_attr "embedding_manager" (embedding_manager s)) ;;
       modify (keep_retriever {| vector_store := vs; manager := em |}) ;;
       emit (st_success (lit "✅ Legal Database Ready")) ;;
       n <- lift (collection_count w vs) ;;
       emit (st_info (lit "📚 Documents: " ++ str_of_int n))
     | (None, _) => emit (st_info (lit "💡 Using AI-only mode"))
     end
   else ret tt)%st.

(** The second sidebar block, lines 114 to 132: the two sliders.  Their
    values are in [UI]. *)
Definition sidebar_settings : M session unit :=
  emit (st_header (lit "⚙️ Settings")).

Definition newline : str := [10%N].
Definition indent : str := repeat 32%N 24.

(** The f-string of the LLM-only branch: lines 167 to 173. *)
Definition llm_only_prompt (q : str) : str :=
  newline
  ++ indent ++ lit "You are an expert legal scholar. Answer this legal question:"
  ++ newline ++ newline
  ++ indent ++ q ++ newline ++ newline
  ++ indent
  ++ lit "Provide a comprehensive legal analysis with relevant principles and examples."
  ++ newline ++ indent.

(** The fixed confidence of the LLM-only branch. *)
Definition llm_only_confidence : Q := 0.8.

(** [for i, source in enumerate(result["sources"], 1)]: one expander each. *)
Fixpoint show_sources (i : Z) (l : list ScoredSource) : M session unit :=
  match l with
  | [] => ret tt
  | src :: rest =>
    (emit (st_expander
             [Txt (lit "Source "); Txt (str_of_int i); Txt (lit ": ");
              Txt (source src); Txt (lit " (Score: ");
              Fmt ".2f" (score src); Txt (lit ")")]) ;;
     emit (st_write (lit "**Preview:** " ++ preview src)) ;;
     emit (st_write
             (lit "**Page:** "
              ++ match page src with
                 | Some p => str_of_int p
                 | None => lit "N/A"
                 end)) ;;
     show_sources (i + 1) rest)%st
  end.

(** The display of a result: lines 180 to 193. *)
Definition show_result (r : QueryResult) : M session unit :=
  (emit (st_markdown (lit "### 📝 Legal Analysis")) ;;
   emit (st_markdown
           (lit "<div class=" ++ [34%N] ++ lit "response-box" ++ [34%N]
            ++ lit ">")) ;;
   emit (st_write (answer r)) ;;
   emit (st_markdown (lit "</div>")) ;;
   (if negb (Qeq_bool (confidence r) 0) then
      emit (st_metric (lit "Confidence Score") [Fmt ".2%" (confidence r)])
    else ret tt) ;;
   match sources r with
   | [] => ret tt
   | _ :: _ =>
     emit (st_subheader (lit "📚 Legal Sources")) ;;
     show_sources 1 (sources r)
   end)%st.

(** The body of [with st.spinner(...)] in the handler, lines 152 to 193: it
    computes
    [result], by [rag_advanced] when a retriever is in the session and by
    the LLM alone otherwise, and displays it. *)
Definition research (w : World) (u : UI) : M session QueryResult :=
  (emit (st_spinner (lit "🔍 Researching legal sources...")) ;;
   lift (import_from w ["rag_advanced"]%string) ;;
   s <- get ;;
   r <- match retriever s with
        | Some rr =>
          l <- lift (session_attr "llm" (llm s)) ;;
          emit (call_rag_advanced (query u) rr l (top_k u) (min_score u)
                  false) ;;
          lift (rag_advanced w (query u) rr l (top_k u) (min_score u) false)
        | None =>
          l <- lift (session_attr "llm" (llm s)) ;;
          emit (invoke l (llm_only_prompt (query u))) ;;
          response <- lift (llm_invoke w l (llm_only_prompt (query u))) ;;
          ret {| answer := content response;
                 sources := [];
                 confidence := llm_only_confidence |}
        end ;;
   show_result r ;;
   ret r)%st.

(** The handler of the button "Get Legal Answer": lines 145 to 196.  Its
    value is the [result] it displayed, if any. *)
Definition handle_query (w : World) (u : UI) : M session (option QueryResult) :=
  (if get_legal_answer u then
     if negb (truthy_str (strip (query u))) then
       emit (st_error (lit "Please enter a legal question")) ;; ret None
     else
       s <- get ;;
       if negb (rag_initialized s) then
         emit (st_error (lit "System not ready. Please check status.")) ;;
         ret None
       else
         mtry (r <- research w u ;; ret (Some r))
              (fun e =>
                 emit (st_error (lit "Error processing query: " ++ exc_str e)) ;;
                 ret None)
   else ret None)%st.

(** The head of the first column, above the text area. *)
Definition ask_header : M session unit :=
  emit (st_subheader (lit "🔍 Ask a Legal Question")).

(** One run of the script, from the sidebar (line 88) to the handler.  The
    head of the file (lines 1 to 42: the page configuration, the lookup of
    the secret or the loading of dotenv, the page header), which can raise
    before the sidebar is reached, is taken to have run; the column of
    example questions and the refresh button after the handler are left
    out. *)
Definition script (w : World) (u : UI) : M session (option QueryResult) :=
  (sidebar_status w ;; sidebar_settings ;; ask_header ;; handle_query w u)%st.

(** Streamlit runs the script again on every interaction, on the session
    the run before left behind, also when that run ended in an exception. *)
Fixpoint reruns (runs : list (World * UI)) (s : session)
  : session * list (list event * result (option QueryResult)) :=
  match runs with
  | [] => (s, [])
  | (w, u) :: rest =>
    let '(s1, t, r) := script w u s in
    let '(s2, outs) := reruns rest s1 in
    (s2, (t, r) :: outs)
  end.

(** The two paths of a request, as the design document names them. *)
Inductive mode : Type := RETRIEVAL_AUGMENTED | GENERATION_ONLY.

(** The path a run took, read off its trace: the first entry into
    [rag_advanced] or [llm.invoke]; [None] when neither was entered. *)
Fixpoint mode_of_trace (t : list event) : option mode :=
  match t with
  | [] => None
  | call_rag_advanced _ _ _ _ _ _ :: _ => Some RETRIEVAL_AUGMENTED
  | invoke _ _ :: _ => Some GENERATION_ONLY
  | _ :: rest => mode_of_trace rest
  end.

(** The path the dispatch of the handler chooses for a session. *)
Definition dispatch (s : session) : mode :=
  match retriever s with
  | Some _ => RETRIEVAL_AUGMENTED
  | None => GENERATION_ONLY
  end.

End StreamlitApp.

(* ================================================================== *)
(** ** prebuild.py *)

Module Prebuild.

Local Open Scope list_scope.

(** [time.time()]: the state of the driver counts the calls made. *)
Definition time_time (w : World) : M nat Q :=
  fun n => (S n, [], Ok (clock w n)).

(** [prebuild_vector_store()]. *)
Definition prebuild_vector_store (w : World) : M nat unit :=
  (emit (print [Txt (lit "🚀 Pre-building vector store...")]) ;;
   start_time <- time_time w ;;
   mtry
     (vs <- lift (new_VectorStore w (lit "./prebuilt_vector_store") true
                    (Some (lit "."))) ;;
      doc_count <- lift (collection_count w vs) ;;
      end_time <- time_time w ;;
      emit (print [Txt (lit "✅ Vector store built successfully!")]) ;;
      emit (print [Txt (lit "📚 Documents: "); Txt (str_of_int doc_count)]) ;;
      emit (print [Txt (lit "⏱️ Time taken: ");
                   Fmt ".2f" (end_time - start_time)%Q;
                   Txt (lit " seconds")]))
     (fun e =>
        emit (print [Txt (lit "❌ Error building vector store: ");
                     Txt (exc_str e)]) ;;
        lift (sys_exit 1)))%st.

(** The module run as a program: the import of its head, then the call
    under [if __name__ == "__main__"]. *)
Definition main (w : World) : M nat unit :=
  (lift (import_from w ["VectorStore"]%string) ;;
   prebuild_vector_store w)%st.

(** What the process prints and the status it ends with. *)
Definition run (w : World) : list event * Z :=
  let '(_, t, r) := main w 0%nat in (t, exit_status r).

End Prebuild.

(* ================================================================== *)
(** ** RagFullPipeline, from the design document *)

Module RagFullPipeline.

Local Open Scope list_scope.

Section Pipeline.

(** Modelled from the spec: the similarity measure of [VectorStore.search]
    ("cosine or inner-product, chosen once and fixed"); the module that
    chooses it is missing. *)
Variable similarity : list Q -> list Q -> Q.

(** Modelled from the spec: the length of a source preview ("first N
    characters, same N for all chunks"), a configuration value of the
    missing retriever. *)
Variable preview_length : nat.

(** Modelled from the spec: [GenerationClient.generate], the hosted-model
    call behind the missing [rag_advanced]. *)
Variable generate : LLM -> str -> result Response.

(** Modelled from the spec: [EmbeddingManager.embed], which is missing.
    "Stateless per call": the call hands back the manager it was given, and
    the vector is the one the manager's model instance computes. *)
Definition embed (em : EmbeddingManager) (t : str)
  : list Q * EmbeddingManager :=
  (model em t, em).

(** Modelled from the spec: [VectorStore.count], which is missing: the
    "number of chunks currently stored". *)
Definition count (vs : VectorStore) : Z := Z.of_nat (length (collection vs)).

(** Modelled from the spec: the ranking inside the missing
    [VectorStore.search]: "descending by score, ties broken by insertion
    order (earlier-inserted wins)". *)
Fixpoint insert_desc (x : DocumentChunk * Q) (l : list (DocumentChunk * Q))
  : list (DocumentChunk * Q) :=
  match l with
  | [] => [x]
  | y :: t =>
    if Qle_bool (snd y) (snd x) then x :: y :: t
    else y :: insert_desc x t
  end.

(** Modelled from the spec: the scored chunks of the missing
    [VectorStore.search], ranked; an earlier chunk is put in front of the
    later ones of the same score. *)
Fixpoint rank (l : list (DocumentChunk * Q)) : list (DocumentChunk * Q) :=
  match l with
  | [] => []
  | x :: t => insert_desc x (rank t)
  end.

(** Modelled from the spec: [VectorStore.search(query_vector, k)], which is
    missing: "up to k nearest neighbors by similarity". *)
Definition search (vs : VectorStore) (v : list Q) (k : nat)
  : list (DocumentChunk * Q) :=
  firstn k (rank (map (fun c => (c, similarity v (embedding c)))
                      (collection vs))).

(** Modelled from the spec: the projection of a chunk and its score to a
    [ScoredSource] in the missing retriever, with the truncated preview. *)
Definition to_source (cs : DocumentChunk * Q) : ScoredSource :=
  {| source := source_name (fst cs);
     page := chunk_page (fst cs);
     preview := firstn preview_length (text (fst cs));
     score := snd cs |}.

(** Modelled from the spec: [Retriever.retrieve(query, top_k, min_score)],
    which is missing: embed the query, search, "filter out any result with
    score < min_score", project. *)
Definition retrieve (rr : RagRetriever) (q : str) (k : Z) (threshold : Q)
  : list ScoredSource :=
  let v := fst (embed (manager rr) q) in
  map to_source
    (filter (fun cs => Qle_bool threshold (snd cs))
       (search (vector_store rr) v (Z.to_nat k))).

(** Modelled from the spec: the prompt of step 2b of the missing
    orchestrator: the instruction, the previews, "each prefixed by its
    source identity", and the query. *)
Definition context_prompt (q : str) (l : list ScoredSource) : str :=
  lit "Answer the question using the provided legal sources where relevant."
  ++ StreamlitApp.newline
  ++ concat (map (fun s => source s ++ lit ": " ++ preview s
                           ++ StreamlitApp.newline) l)
  ++ lit "Question: " ++ q.

(** Modelled from the spec: the prompt the missing orchestrator sends, steps
    2b and 2c: with context when sources survived, otherwise the
    "generation-only prompt (plain question, no injected context)", for
    which the script's LLM-only prompt is taken. *)
Definition build_prompt (q : str) (l : list ScoredSource) : str :=
  match l with
  | [] => StreamlitApp.llm_only_prompt q
  | _ :: _ => context_prompt q l
  end.

(** Modelled from the spec: "clamped to [0,1]" in step 2e. *)
Definition clamp01 (x : Q) : Q :=
  if Qle_bool x 0 then 0 else if Qle_bool 1 x then 1 else x.

(** Modelled from the spec: the fixed baseline "when no sources were used"
    ("e.g. 0.8"): the constant of the script's LLM-only branch. *)
Definition baseline : Q := StreamlitApp.llm_only_confidence.

(** Modelled from the spec: the confidence policy of step 2e of the
    missing orchestrator, with the formula the text gives:
    "confidence = 0.5 + 0.5 * top_score when sources are present, clamped
    to [0,1]; a fixed lower baseline when no sources were used". *)
Definition confidence_of (l : list ScoredSource) : Q :=
  match l with
  | [] => baseline
  | top :: _ => clamp01 (0.5 + 0.5 * score top)
  end.

(** Modelled from the spec: [rag_advanced], the retrieval-augmented path
    of the orchestrator (steps 2a to 2e and 4), which is missing.  A failed
    generation is surfaced as [GenerationFailed], with no partial result. *)
Definition rag_advanced (q : str) (rr : RagRetriever) (l : LLM)
    (k : Z) (threshold : Q) (return_context : bool) : result QueryResult :=
  let found := retrieve rr q k threshold in
  match generate l (build_prompt q found) with
  | Ok response =>
    Ok {| answer := content response;
          sources := found;
          confidence := confidence_of found |}
  | Raise e =>
    if is_Exception e then Raise (Error "GenerationFailed" (exc_str e))
    else Raise e
  end.

End Pipeline.

(** In a list in descending order of score, an earlier entry scores at
    least as much as a later one. *)
Definition descending (a b : ScoredSource) : Prop := (score b <= score a)%Q.

Definition ranked (a b : DocumentChunk * Q) : Prop := (snd b <= snd a)%Q.

(** The inner product of two vectors, one of the two similarity measures
    the design allows. *)
Fixpoint inner_product (u v : list Q) : Q :=
  match u, v with
  | x :: u', y :: v' => x * y + inner_product u' v'
  | _, _ => 0
  end.

End RagFullPipeline.

(** A world whose [rag_advanced] is the one of the design document, driven
    by the world's own LLM. *)
Definition with_pipeline (similarity : list Q -> list Q -> Q)
    (preview_length : nat) (w : World) : World :=
  {| import_from := import_from w;
     initialize_llm := initialize_llm w;
     new_EmbeddingManager := new_EmbeddingManager w;
     path_exists := path_exists w;
     new_VectorStore := new_VectorStore w;
     collection_count := collection_count w;
     rag_advanced :=
       RagFullPipeline.rag_advanced similarity preview_length (llm_invoke w);
     llm_invoke := llm_invoke w;
     clock := clock w |}.

(* ================================================================== *)
(** ** Sample worlds *)

Module Samples.

Local Open Scope list_scope.

Definition the_llm : LLM := {| model_name := lit "llm" |}.

Definition the_manager : EmbeddingManager :=
  {| model_version := lit "v1";
     model := fun t => [1%Q; inject_Z (Z.of_nat (length t))] |}.

Definition negligence_chunk (e : list Q) : DocumentChunk :=
  {| id := lit "chunk-0";
     text := lit "Negligence requires duty, breach, causation, and damage.";
     source_name := lit "torts.pdf";
     chunk_page := Some 12;
     embedding := e |}.

Definition store_of (chunks : list DocumentChunk) : VectorStore :=
  {| persist_directory := StreamlitApp.persist_dir; collection := chunks |}.

(** A world in which every import succeeds and the LLM answers; the
    persisted directory is there or not, and opening it gives [opened]. *)
Definition world (dir_exists : bool) (opened : result VectorStore) : World :=
  {| import_from := fun _ => Ok tt;
     initialize_llm := Ok (Some the_llm);
     new_EmbeddingManager := Ok the_manager;
     path_exists := fun _ => dir_exists;
     new_VectorStore := fun _ _ _ => opened;
     collection_count := fun vs => Ok (RagFullPipeline.count vs);
     rag_advanced :=
       RagFullPipeline.rag_advanced RagFullPipeline.inner_product 300
         (fun _ _ => Ok {| content := lit "Answer from the sources." |});
     llm_invoke := fun _ _ => Ok {| content := lit "Answer of the LLM." |};
     clock := fun n => inject_Z (Z.of_nat n) |}.

(** No persisted directory. *)
Definition world_no_store : World :=
  world false (Raise (Error "ValueError" (lit "no collection"))).

(** A persisted directory that holds an empty collection. *)
Definition world_empty_store : World := world true (Ok (store_of [])).

(** A persisted directory that holds the chunk on negligence. *)
Definition world_one_chunk : World :=
  world true (Ok (store_of [negligence_chunk [0.92%Q; 0%Q]])).

(** A persisted directory whose collection cannot be opened. *)
Definition world_broken_store : World :=
  world true (Raise (Error "RuntimeError" (lit "corrupt index"))).

(** The module [RagFullPipeline] cannot be imported. *)
Definition world_no_pipeline : World :=
  {| import_from := fun _ =>
       Raise (Error "ModuleNotFoundError"
                (lit "No module named 'RagFullPipeline'"));
     initialize_llm := Ok (Some the_llm);
     new_EmbeddingManager := Ok the_manager;
     path_exists := fun _ => false;
     new_VectorStore := fun _ _ _ => Ok (store_of []);
     collection_count := fun vs => Ok (RagFullPipeline.count vs);
     rag_advanced := fun _ _ _ _ _ _ =>
       Raise (Error "RuntimeError" (lit "unavailable"));
     llm_invoke := fun _ _ => Ok {| content := lit "Answer of the LLM." |};
     clock := fun n => inject_Z (Z.of_nat n) |}.

(** [initialize_llm()] ends the interpreter with [sys.exit(1)]. *)
Definition world_llm_exits : World :=
  {| import_from := fun _ => Ok tt;
     initialize_llm := sys_exit 1;
     new_EmbeddingManager := Ok the_manager;
     path_exists := fun _ => false;
     new_VectorStore := fun _ _ _ => Ok (store_of []);
     collection_count := fun vs => Ok (RagFullPipeline.count vs);
     rag_advanced := fun _ _ _ _ _ _ =>
       Raise (Error "RuntimeError" (lit "unavailable"));
     llm_invoke := fun _ _ => Ok {| content := lit "Answer of the LLM." |};
     clock := fun n => inject_Z (Z.of_nat n) |}.

Definition ask (q : string) : UI :=
  {| top_k := 3; min_score := 0.3; query := lit q; get_legal_answer := true |}.

(** A session that was initialised and holds no retriever. *)
Definition ready_session : session :=
  {| rag_initialized := true; vector_store_ready := false;
     llm := Some the_llm; embedding_manager := Some the_manager;
     vectorstore := None; retriever := None |}.

(** A session to which a retriever over [chunks] is attached. *)
Definition session_with_retriever (chunks : list DocumentChunk) : session :=
  {| rag_initialized := true; vector_store_ready := true;
     llm := Some the_llm; embedding_manager := Some the_manager;
     vectorstore := Some (store_of chunks);
     retriever := Some {| vector_store := store_of chunks;
                          manager := the_manager |} |}.

(** The world without a persisted directory, with the [rag_advanced] of the
    design document. *)
Definition pipeline_world : World :=
  with_pipeline RagFullPipeline.inner_product 300 world_no_store.

End Samples.

(* ================================================================== *)
(** ** streamlit_app.py: the second column and the foot of the page *)

Module Page.

Import StreamlitApp.

Local Open Scope list_scope.

(** [st.session_state] with the one key the second column adds. *)
Record page_state : Type := {
  state : session;
  last_query : option str
}.

Definition fresh_page : page_state :=
  {| state := fresh_session; last_query := None |}.

(** What was clicked in the second column: [st.button(example,
    key=example)] for each example, and the refresh button. *)
Record clicks : Type := {
  example_clicked : str -> bool;
  refresh_clicked : bool
}.

(** The list [examples] of line 201. *)
Definition examples : list str :=
  [lit "What constitutes murder under Nigerian criminal law?";
   lit "Explain the requirements for a valid contract";
   lit "What are the defenses to defamation?";
   lit "How does the statute of limitations work in tort cases?"].

(** A part of the script that only knows the keys of [session]. *)
Definition on_session {A} (m : M session A) : M page_state A :=
  fun p =>
    let '(s1, t, r) := m (state p) in
    ({| state := s1; last_query := last_query p |}, t, r).

(** The loop of lines 208 to 211.  [st.rerun()] ends the run on the spot:
    the value [true] says that it was called. *)
Fixpoint example_buttons (c : clicks) (l : list str) : M page_state bool :=
  match l with
  | [] => ret false
  | example :: rest =>
    if example_clicked c example then
      (modify (fun p => {| state := state p; last_query := Some example |}) ;;
       ret true)%st
    else example_buttons c rest
  end.

(** [st.session_state.vector_store_ready = False]. *)
Definition lower_ready (s : session) : session :=
  {| rag_initialized := rag_initialized s;
     vector_store_ready := false;
     llm := llm s; embedding_manager := embedding_manager s;
     vectorstore := vectorstore s; retriever := retriever s |}.

(** The second column, lines 198 to 218; [true] when [st.rerun()] was
    called. *)
Definition col2 (c : clicks) : M page_state bool :=
  (emit (st_subheader (lit "💡 Example Questions")) ;;
   rerun <- example_buttons c examples ;;
   if rerun then ret true
   else
     emit (st_markdown (lit "---")) ;;
     emit (st_subheader (lit "⚡ Quick Actions")) ;;
     if refresh_clicked c then
       modify (fun p => {| state := lower_ready (state p);
                           last_query := last_query p |}) ;;
       ret true
     else ret false)%st.

(** The foot of the page, lines 220 to 224. *)
Definition footer : M page_state unit :=
  (emit (st_markdown (lit "---")) ;;
   emit (st_markdown
           (lit "⚠️ **Disclaimer:** This AI assistant provides legal information for educational purposes only. "
            ++ lit "It does not constitute legal advice. Always consult a qualified attorney for legal matters.")))%st.

(** One run of the page from the sidebar to its foot: the result the
    handler displayed, and whether the run ended in [st.rerun()]. *)
Definition page_script (w : World) (u : UI) (c : clicks)
  : M page_state (option QueryResult * bool) :=
  (r <- on_session (script w u) ;;
   rerun <- col2 c ;;
   if rerun then ret (r, true)
   else footer ;; ret (r, false))%st.

(** The runs of a visit, each on the page state the run before left. *)
Fixpoint visit (runs : list (World * UI * clicks)) (p : page_state)
  : page_state
    * list (list event * result (option QueryResult * bool)) :=
  match runs with
  | [] => (p, [])
  | (w, u, c) :: rest =>
    let '(p1, t, r) := page_script w u c p in
    let '(p2, outs) := visit rest p1 in
    (p2, (t, r) :: outs)
  end.

(** Nothing clicked in the second column. *)
Definition no_click : clicks :=
  {| example_clicked := fun _ => false; refresh_clicked := false |}.

(** One example clicked. *)
Definition click_example (example : str) : clicks :=
  {| example_clicked := fun x => if list_eq_dec N.eq_dec x example
                                 then true else false;
     refresh_clicked := false |}.


End Page.

(* ================================================================== *)
(** ** Reading a trace *)

Module Trace.

Local Open Scope list_scope.

(** The labels of the expanders of a trace, in order. *)
Fixpoint expanders (t : list event) : list (list piece) :=
  match t with
  | [] => []
  | st_expander label :: rest => label :: expanders rest
  | _ :: rest => expanders rest
  end.

(** The values of the metrics of a trace, in order. *)
Fixpoint metrics (t : list event) : list (list piece) :=
  match t with
  | [] => []
  | st_metric _ value :: rest => value :: metrics rest
  | _ :: rest => metrics rest
  end.

(** The label line 191 gives the expander of the [i]-th source. *)
Definition source_label (i : Z) (src : ScoredSource) : list piece :=
  [Txt (lit "Source "); Txt (str_of_int i); Txt (lit ": ");
   Txt (source src); Txt (lit " (Score: ");
   Fmt ".2f" (score src); Txt (lit ")")].

(** The lines a run of [prebuild.py] printed. *)
Fixpoint printed (t : list event) : list (list piece) :=
  match t with
  | [] => []
  | print line :: rest => line :: printed rest
  | _ :: rest => printed rest
  end.

(** The texts of the spinners of a trace, in order. *)
Fixpoint spinners (t : list event) : list str :=
  match t with
  | [] => []
  | st_spinner body :: rest => body :: spinners rest
  | _ :: rest => spinners rest
  end.

(** Two worlds that answer alike wherever the script asks, the three
    calls of [initialize_minimal_rag] apart: its import, [initialize_llm()]
    and [EmbeddingManager()]. *)
Definition same_but_initialisation (w w' : World) : Prop :=
  (forall names,
     names <> ["initialize_llm"; "EmbeddingManager"]%string ->
     import_from w names = import_from w' names) /\
  (forall path, path_exists w path = path_exists w' path) /\
  (forall dir persistent folder,
     new_VectorStore w dir persistent folder
     = new_VectorStore w' dir persistent folder) /\
  (forall vs, collection_count w vs = collection_count w' vs) /\
  (forall q rr l k threshold rc,
     rag_advanced w q rr l k threshold rc
     = rag_advanced w' q rr l k threshold rc) /\
  (forall l prompt, llm_invoke w l prompt = llm_invoke w' l prompt).

(** The components are there when the session says it is initialised. *)
Definition components_held (s : session) : Prop :=
  rag_initialized s = true ->
  exists l em, llm s = Some l /\ embedding_manager s = Some em.

End Trace.

(* ================================================================== *)
(** ** More sample worlds *)

Module MoreSamples.

Import Samples.

Local Open Scope list_scope.

(** No persisted directory, and an LLM that cannot be reached. *)
Definition world_llm_down : World :=
  {| import_from := fun _ => Ok tt;
     initialize_llm := Ok (Some the_llm);
     new_EmbeddingManager := Ok the_manager;
     path_exists := fun _ => false;
     new_VectorStore := fun _ _ _ => Ok (store_of []);
     collection_count := fun vs => Ok (RagFullPipeline.count vs);
     rag_advanced := fun _ _ _ _ _ _ =>
       Raise (Error "RuntimeError" (lit "retrieval failed"));
     llm_invoke := fun _ _ =>
       Raise (Error "APIConnectionError" (lit "Connection error."));
     clock := fun n => inject_Z (Z.of_nat n) |}.

(** Everything of [RagFullPipeline] can be imported but [rag_advanced]. *)
Definition world_no_rag_advanced : World :=
  {| import_from := fun names =>
       if existsb (String.eqb "rag_advanced") names then
         Raise (Error "ImportError"
                  (lit "cannot import name 'rag_advanced'"))
       else Ok tt;
     initialize_llm := Ok (Some the_llm);
     new_EmbeddingManager := Ok the_manager;
     path_exists := fun _ => false;
     new_VectorStore := fun _ _ _ => Ok (store_of []);
     collection_count := fun vs => Ok (RagFullPipeline.count vs);
     rag_advanced := fun _ _ _ _ _ _ =>
       Raise (Error "RuntimeError" (lit "retrieval failed"));
     llm_invoke := fun _ _ => Ok {| content := lit "Answer of the LLM." |};
     clock := fun n => inject_Z (Z.of_nat n) |}.

(** Building the store is interrupted from the keyboard. *)
Definition world_interrupted : World := world true (Raise KeyboardInterrupt).

(** The world of [world_one_chunk], but for an [initialize_llm()] that
    ends the interpreter and an [EmbeddingManager()] that fails. *)
Definition world_one_chunk_llm_exits : World :=
  {| import_from := import_from world_one_chunk;
     initialize_llm := sys_exit 1;
     new_EmbeddingManager :=
       Raise (Error "OSError" (lit "model files not found"));
     path_exists := path_exists world_one_chunk;
     new_VectorStore := new_VectorStore world_one_chunk;
     collection_count := collection_count world_one_chunk;
     rag_advanced := rag_advanced world_one_chunk;
     llm_invoke := llm_invoke world_one_chunk;
     clock := clock world_one_chunk |}.

(** The page as it is when the main button was not pressed. *)
Definition idle : UI :=
  {| top_k := 3; min_score := 0.3; query := []; get_legal_answer := false |}.

(** Two sources, the second without a page. *)
Definition two_sources : list ScoredSource :=
  [{| source := lit "torts.pdf"; page := Some 12;
      preview := lit "Negligence requires duty"; score := 0.92 |};
   {| source := lit "contract.pdf"; page := None;
      preview := lit "An offer must be accepted"; score := 0.5 |}].

End MoreSamples.

(* ================================================================== *)
(** * Properties *)

Import StreamlitApp.

Local Open Scope list_scope.

(** The literals stay folded in the proofs about arbitrary worlds. *)
Opaque lit str_of_int.

(** ** Text *)

Lemma lstrip_spaces (s : str) :
  forallb isspace s = true -> lstrip s = [].
Proof.
  induction s as [|c t IH]; simpl; [reflexivity|].
  intros H. apply andb_true_iff in H as [Hc Ht].
  rewrite Hc. exact (IH Ht).
Qed.

Lemma lstrip_nil_spaces (s : str) :
  lstrip s = [] -> forallb isspace s = true.
Proof.
  induction s as [|c t IH]; simpl; [reflexivity|].
  destruct (isspace c); [exact IH | discriminate].
Qed.

Lemma lstrip_suffix (s : str) :
  exists p, s = p ++ lstrip s /\ forallb isspace p = true.
Proof.
  induction s as [|c t [p [Hp Hs]]]; simpl.
  - exists []. split; reflexivity.
  - destruct (isspace c) eqn:Hc.
    + exists (c :: p). simpl. rewrite Hc, Hs. split; [f_equal; exact Hp | reflexivity].
    + exists []. split; reflexivity.
Qed.

(** [query.strip()] is empty exactly for the strings made of whitespace. *)
Lemma strip_nil_iff (s : str) :
  strip s = [] <-> forallb isspace s = true.
Proof.
  unfold strip, rstrip. split.
  - intros H.
    assert (H1 : lstrip (rev (lstrip s)) = []).
    { rewrite <- (rev_involutive (lstrip _)), H. reflexivity. }
    apply lstrip_nil_spaces in H1.
    rewrite forallb_forall in H1.
    destruct (lstrip_suffix s) as [p [Hp Hs]].
    rewrite Hp, forallb_app, Hs. simpl.
    apply forallb_forall. intros x Hx. apply H1, in_rev.
    rewrite rev_involutive. exact Hx.
  - intros H. rewrite (lstrip_spaces s H). reflexivity.
Qed.

Example strip_example : strip (lit "  duty of care  ") = lit "duty of care".
Proof. vm_compute. reflexivity. Qed.

(** A no-break space (U+00A0) and an ideographic space (U+3000) are
    whitespace for [str.strip]. *)
Example strip_unicode_example : strip [160%N; 12288%N; 9%N] = [].
Proof. vm_compute. reflexivity. Qed.

Example lit_example : lit "✅ ok" = [9989%N; 32%N; 111%N; 107%N].
Proof. vm_compute. reflexivity. Qed.

(** ** The display never fails and calls nothing *)

Lemma mode_of_trace_app (t1 t2 : list event) :
  mode_of_trace (t1 ++ t2) =
  match mode_of_trace t1 with
  | Some m => Some m
  | None => mode_of_trace t2
  end.
Proof.
  induction t1 as [|e t1 IH]; simpl; [reflexivity|].
  destruct e; auto.
Qed.

Lemma show_sources_ok (l : list ScoredSource) :
  forall i s, exists t,
    show_sources i l s = (s, t, Ok tt) /\ mode_of_trace t = None.
Proof.
  induction l as [|src rest IH]; intros i s; simpl.
  - exists []. split; reflexivity.
  - destruct (IH (i + 1) s) as [t [Ht Hm]].
    unfold bind, emit. rewrite Ht.
    eexists. split; [reflexivity | exact Hm].
Qed.

Lemma show_result_ok (r : QueryResult) (s : session) :
  exists t, show_result r s = (s, t, Ok tt) /\ mode_of_trace t = None.
Proof.
  unfold show_result.
  assert (Hsrc : exists t,
    match sources r with
    | [] => ret tt
    | _ :: _ =>
      (emit (st_subheader (lit "📚 Legal Sources")) ;;
       show_sources 1 (sources r))%st
    end s = (s, t, Ok tt) /\ mode_of_trace t = None).
  { destruct (sources r) as [|src rest].
    - exists []. split; reflexivity.
    - destruct (show_sources_ok (src :: rest) 1 s) as [t [Ht Hm]].
      unfold bind, emit. rewrite Ht.
      eexists. split; [reflexivity | exact Hm]. }
  destruct Hsrc as [t [Ht Hm]].
  unfold bind, emit, ret in *.
  destruct (negb (Qeq_bool (confidence r) 0)); rewrite Ht;
    eexists; (split; [reflexivity | exact Hm]).
Qed.

(** ** The handler, case by case *)

Ltac show_result_step r s :=
  let t := fresh "t" in
  let Ht := fresh "Ht" in
  let Hm := fresh "Hm" in
  destruct (show_result_ok r s) as [t [Ht Hm]]; rewrite Ht.

(** What a completed computation of [result] says about the session it
    started from. *)
Lemma research_Ok_inv (w : World) (u : UI) (s s' : session)
    (t : list event) (r : QueryResult) :
  research w u s = (s', t, Ok r) ->
  s' = s /\ mode_of_trace t = Some (dispatch s) /\
  exists l, llm s = Some l /\
    match retriever s with
    | None =>
      exists response,
        llm_invoke w l (llm_only_prompt (query u)) = Ok response /\
        r = {| answer := content response; sources := [];
               confidence := llm_only_confidence |}
    | Some rr =>
      rag_advanced w (query u) rr l (top_k u) (min_score u) false = Ok r
    end.
Proof.
  unfold research, dispatch, bind, emit, lift, get, ret, session_attr.
  destruct (import_from w _) as [[]|e]; [|discriminate].
  destruct (retriever s) as [rr|]; destruct (llm s) as [l|];
    try discriminate.
  - destruct (rag_advanced w _ _ _ _ _ _) as [r0|e] eqn:Hr; [|discriminate].
    show_result_step r0 s. intros H. inversion H; subst.
    split; [reflexivity|]. split; [reflexivity|].
    exists l. split; [reflexivity | exact Hr].
  - destruct (llm_invoke w _ _) as [resp|e] eqn:Hr; [|discriminate].
    match goal with |- context [show_result ?r0 s] => show_result_step r0 s end.
    intros H. inversion H; subst.
    split; [reflexivity|]. split; [reflexivity|].
    exists l. split; [reflexivity|]. exists resp. split; [exact Hr | reflexivity].
Qed.

(** The computation of [result] leaves the session as it is, and enters
    the path of the dispatch as soon as [rag_advanced] is imported and the
    session holds an LLM; what it raises is what the call on that path
    raised. *)
Lemma research_mode (w : World) (u : UI) (s : session) (l : LLM) :
  import_from w ["rag_advanced"]%string = Ok tt ->
  llm s = Some l ->
  exists t r, research w u s = (s, t, r) /\
    mode_of_trace t = Some (dispatch s) /\
    forall e, r = Raise e ->
      match retriever s with
      | Some rr =>
        rag_advanced w (query u) rr l (top_k u) (min_score u) false = Raise e
      | None => llm_invoke w l (llm_only_prompt (query u)) = Raise e
      end.
Proof.
  intros Hi Hl.
  unfold research, dispatch, bind, emit, lift, get, ret, session_attr.
  rewrite Hi, Hl.
  destruct (retriever s) as [rr|].
  - destruct (rag_advanced w _ _ _ _ _ _) as [r0|e].
    + show_result_step r0 s. eexists. eexists.
      split; [reflexivity|]. split; [reflexivity|]. discriminate.
    + eexists. eexists.
      split; [reflexivity|]. split; [reflexivity|]. intros e' H. exact H.
  - destruct (llm_invoke w _ _) as [resp|e].
    + match goal with |- context [show_result ?r0 s] => show_result_step r0 s end.
      eexists. eexists.
      split; [reflexivity|]. split; [reflexivity|]. discriminate.
    + eexists. eexists.
      split; [reflexivity|]. split; [reflexivity|].
      intros e' H. inversion H. reflexivity.
Qed.

Lemma research_session (w : World) (u : UI) (s s' : session)
    (t : list event) (r : result QueryResult) :
  research w u s = (s', t, r) -> s' = s.
Proof.
  unfold research, bind, emit, lift, get, ret, session_attr.
  destruct (import_from w _) as [[]|e]; [|intros H; inversion H; reflexivity].
  destruct (retriever s) as [rr|]; destruct (llm s) as [l|];
    try (intros H; inversion H; reflexivity).
  - destruct (rag_advanced w _ _ _ _ _ _) as [r0|e];
      [show_result_step r0 s|]; intros H; inversion H; reflexivity.
  - destruct (llm_invoke w _ _) as [resp|e];
      [match goal with |- context [show_result ?r0 s] =>
         show_result_step r0 s end|];
      intros H; inversion H; reflexivity.
Qed.

(** A result comes out of the handler only through [research]. *)
Lemma handle_query_Some_inv (w : World) (u : UI) (s s' : session)
    (t : list event) (r : QueryResult) :
  handle_query w u s = (s', t, Ok (Some r)) ->
  get_legal_answer u = true /\ strip (query u) <> [] /\
  rag_initialized s = true /\ research w u s = (s', t, Ok r).
Proof.
  unfold handle_query.
  destruct (get_legal_answer u); [|discriminate].
  destruct (strip (query u)) as [|c q'] eqn:Hq; simpl; [discriminate|].
  unfold bind at 1, get at 1.
  destruct (rag_initialized s); simpl; [|discriminate].
  unfold mtry, bind, ret, emit.
  destruct (research w u s) as [[s1 t1] [r1|e]].
  - intros H. inversion H; subst. rewrite app_nil_r.
    repeat split; congruence.
  - destruct (is_Exception e); discriminate.
Qed.

(** The handler never lets an error out, and never changes the session. *)
Lemma handle_query_session (w : World) (u : UI) (s s' : session)
    (t : list event) (r : result (option QueryResult)) :
  handle_query w u s = (s', t, r) ->
  s' = s /\ forall e, r = Raise e -> is_Exception e = false.
Proof.
  unfold handle_query.
  destruct (get_legal_answer u);
    [|intros H; inversion H; split; [reflexivity|discriminate]].
  destruct (truthy_str (strip (query u))); simpl;
    [|intros H; inversion H; split; [reflexivity|discriminate]].
  unfold bind at 1, get at 1.
  destruct (rag_initialized s); simpl;
    [|intros H; inversion H; split; [reflexivity|discriminate]].
  unfold mtry, bind, ret, emit.
  destruct (research w u s) as [[s1 t1] [r1|e]] eqn:Hr;
    apply research_session in Hr; subst s1.
  - intros H; inversion H; split; [reflexivity|discriminate].
  - destruct (is_Exception e) eqn:He; intros H; inversion H; subst;
      (split; [reflexivity|]); [discriminate|].
    intros e' He'. inversion He'; subst. exact He.
Qed.

(** A request that passes the two tests of the handler enters the path of
    the dispatch; only a signal that is not an error leaves the handler,
    and it is the one the call on that path raised. *)
Lemma handle_query_valid (w : World) (u : UI) (s : session) (l : LLM) :
  get_legal_answer u = true -> strip (query u) <> [] ->
  rag_initialized s = true -> llm s = Some l ->
  import_from w ["rag_advanced"]%string = Ok tt ->
  exists t r, handle_query w u s = (s, t, r) /\
    mode_of_trace t = Some (dispatch s) /\
    forall e, r = Raise e ->
      is_Exception e = false /\
      match retriever s with
      | Some rr =>
        rag_advanced w (query u) rr l (top_k u) (min_score u) false = Raise e
      | None => llm_invoke w l (llm_only_prompt (query u)) = Raise e
      end.
Proof.
  intros Hb Hq Hi Hl Himp.
  destruct (research_mode w u s l Himp Hl) as (t & r & Hres & Hm & Hexc).
  unfold handle_query. rewrite Hb.
  destruct (strip (query u)) as [|c q']; [contradiction|]. simpl.
  unfold bind at 1, get at 1. rewrite Hi. simpl.
  unfold mtry, bind, ret, emit. rewrite Hres.
  destruct r as [q|e].
  - eexists. eexists. split; [reflexivity|].
    rewrite app_nil_r. split; [exact Hm | discriminate].
  - destruct (is_Exception e) eqn:He.
    + eexists. eexists. split; [reflexivity|].
      rewrite mode_of_trace_app, Hm. split; [reflexivity | discriminate].
    + eexists. eexists. split; [reflexivity|].
      split; [exact Hm|]. intros e' H. inversion H; subst.
      split; [exact He | apply Hexc; reflexivity].
Qed.


(** ** The sidebar *)

(** [RagRetriever] is imported inside [load_vector_store_lazy] only, so the
    module-level use of the name on line 107 finds nothing. *)
Lemma global_name_RagRetriever :
  global_name "RagRetriever" =
  Raise (Error "NameError" (lit "name 'RagRetriever' is not defined")).
Proof. vm_compute. reflexivity. Qed.

(** The sidebar enters neither path and binds no retriever. *)
Lemma sidebar_status_retriever (w : World) (s s' : session)
    (t : list event) (r : result unit) :
  sidebar_status w s = (s', t, r) ->
  retriever s' = retriever s /\ mode_of_trace t = None.
Proof.
  unfold sidebar_status, bind, emit, lift, get, ret, modify.
  rewrite global_name_RagRetriever.
  destruct (rag_initialized s) eqn:Hi; simpl; rewrite ?Hi; simpl.
  - destruct (vector_store_ready s); simpl.
    + intros H; inversion H; subst. split; reflexivity.
    + destruct (load_vector_store_lazy w) as [[[vs|] msg]|e]; simpl;
        intros H; inversion H; subst; split; reflexivity.
  - destruct (initialize_minimal_rag w) as [[[[l|] [em|]] msg]|e]; simpl;
      rewrite ?Hi; simpl;
      try (intros H; inversion H; subst; split; reflexivity).
    destruct (vector_store_ready s); simpl.
    + intros H; inversion H; subst. split; reflexivity.
    + destruct (load_vector_store_lazy w) as [[[vs|] status]|e']; simpl;
        intros H; inversion H; subst; split; reflexivity.
Qed.

(** An initialised session whose store could not be had: the sidebar says
    so, changes nothing and goes on. *)
Lemma sidebar_status_ai_only (w : World) (s : session) (msg : str) :
  rag_initialized s = true -> vector_store_ready s = false ->
  load_vector_store_lazy w = Ok (None, msg) ->
  sidebar_status w s =
  (s, [st_header (lit "📊 System Status");
       st_spinner (lit "Loading legal database...");
       st_info (lit "💡 Using AI-only mode")], Ok tt).
Proof.
  intros Hi Hv Hl.
  unfold sidebar_status, bind, emit, lift, get, ret, modify.
  rewrite Hi. simpl. rewrite Hi, Hv. simpl. rewrite Hl. reflexivity.
Qed.

(** A session whose initialisation fails: the sidebar reports it, the flag
    stays down and the store is not looked for. *)
Lemma sidebar_status_not_ready (w : World) (s : session)
    (em : option EmbeddingManager) (msg : option str) :
  rag_initialized s = false ->
  initialize_minimal_rag w = Ok (None, em, msg) ->
  sidebar_status w s =
  (s, [st_header (lit "📊 System Status");
       st_spinner (lit "Loading AI components...");
       st_error (lit "❌ System initialization failed")], Ok tt).
Proof.
  intros Hi Hl.
  unfold sidebar_status, bind, emit, lift, get, ret, modify.
  rewrite Hi. simpl. rewrite Hl. simpl. rewrite Hi. reflexivity.
Qed.

(** An initialised session whose store opens: the store is kept, and the
    run ends on line 107 with a [NameError], before a retriever is bound. *)
Lemma sidebar_status_store_opened (w : World) (s : session)
    (vs : VectorStore) (msg : str) :
  rag_initialized s = true -> vector_store_ready s = false ->
  load_vector_store_lazy w = Ok (Some vs, msg) ->
  sidebar_status w s =
  (keep_store vs s,
   [st_header (lit "📊 System Status");
    st_spinner (lit "Loading legal database...")],
   Raise (Error "NameError" (lit "name 'RagRetriever' is not defined"))).
Proof.
  intros Hi Hv Hl.
  unfold sidebar_status, bind, emit, lift, get, ret, modify.
  rewrite global_name_RagRetriever.
  rewrite Hi. simpl. rewrite Hi, Hv. simpl. rewrite Hl. reflexivity.
Qed.

(** ** The script *)

(** The script is the sidebar followed by the handler. *)
Lemma script_unfold (w : World) (u : UI) (s : session) :
  script w u s =
  let '(s1, t1, r1) := sidebar_status w s in
  match r1 with
  | Ok _ =>
    let '(s2, t2, r2) := handle_query w u s1 in
    (s2,
     t1 ++ st_header (lit "⚙️ Settings")
        :: st_subheader (lit "🔍 Ask a Legal Question") :: t2,
     r2)
  | Raise e => (s1, t1, Raise e)
  end.
Proof.
  unfold script, sidebar_settings, ask_header, bind at 1.
  destruct (sidebar_status w s) as [[s1 t1] [[]|e]]; [|reflexivity].
  unfold bind, emit.
  destruct (handle_query w u s1) as [[s2 t2] r2]. reflexivity.
Qed.

(** No run of the script binds a retriever. *)
Lemma script_retriever (w : World) (u : UI) (s s' : session)
    (t : list event) (r : result (option QueryResult)) :
  script w u s = (s', t, r) -> retriever s' = retriever s.
Proof.
  rewrite script_unfold.
  destruct (sidebar_status w s) as [[s1 t1] r1] eqn:Hs.
  apply sidebar_status_retriever in Hs as [Hr _].
  destruct r1 as [[]|e].
  - destruct (handle_query w u s1) as [[s2 t2] r2] eqn:Hh.
    apply handle_query_session in Hh as [-> _].
    intros H; inversion H; subst. exact Hr.
  - intros H; inversion H; subst. exact Hr.
Qed.

(** From a fresh session, however often the script is run and whatever the
    worlds answer, no retriever is ever held. *)
Lemma reruns_retriever (runs : list (World * UI)) :
  forall s, retriever s = None -> retriever (fst (reruns runs s)) = None.
Proof.
  induction runs as [|[w u] rest IH]; intros s Hs; simpl; [exact Hs|].
  destruct (script w u s) as [[s1 t] r] eqn:Hrun.
  apply script_retriever in Hrun.
  specialize (IH s1). destruct (reruns rest s1) as [s2 outs].
  simpl in *. apply IH. congruence.
Qed.

(** A result of the script is a result of its handler, on a session that
    holds the retriever the run started with. *)
Lemma script_Some_inv (w : World) (u : UI) (s s' : session)
    (t : list event) (r : QueryResult) :
  script w u s = (s', t, Ok (Some r)) ->
  exists s1 t1, retriever s1 = retriever s /\
                research w u s1 = (s', t1, Ok r).
Proof.
  rewrite script_unfold.
  destruct (sidebar_status w s) as [[s1 t1] r1] eqn:Hs.
  apply sidebar_status_retriever in Hs as [Hr _].
  destruct r1 as [[]|e]; [|discriminate].
  destruct (handle_query w u s1) as [[s2 t2] r2] eqn:Hh.
  intros H; inversion H; subst.
  apply handle_query_Some_inv in Hh as (_ & _ & _ & Hh).
  exists s1, t2. split; assumption.
Qed.

(* ================================================================== *)
(** * The properties of the design document *)

(** C1. A query that is answered while no retriever is bound (the store is
    absent, or was never attached) gets a result with an empty list of
    sources and the fixed confidence 0.8 of the LLM-only branch. *)
Theorem llm_only_result_is_bare (w : World) (u : UI) (s s' : session)
    (t : list event) (r : QueryResult) :
  retriever s = None ->
  script w u s = (s', t, Ok (Some r)) ->
  sources r = [] /\ confidence r = 0.8%Q.
Proof.
  intros Hnone Hrun.
  apply script_Some_inv in Hrun as (s1 & t1 & Hret & Hres).
  apply research_Ok_inv in Hres as (_ & _ & l & _ & Hcase).
  rewrite Hret, Hnone in Hcase.
  destruct Hcase as (response & _ & ->).
  split; reflexivity.
Qed.

Lemma llm_only_result_is_bare_witness :
  exists s' t r,
    retriever fresh_session = None /\
    script Samples.world_no_store (Samples.ask "What is negligence?")
      fresh_session = (s', t, Ok (Some r)) /\
    sources r = [] /\ confidence r = 0.8%Q.
Proof.
  destruct (script Samples.world_no_store (Samples.ask "What is negligence?")
              fresh_session) as [[s' t] r] eqn:Hrun.
  assert (Hr : exists q, r = Ok (Some q)).
  { vm_compute in Hrun. inversion Hrun. eexists. reflexivity. }
  destruct Hr as [q ->].
  exists s', t, q. split; [reflexivity|]. split; [reflexivity|].
  exact (llm_only_result_is_bare Samples.world_no_store
           (Samples.ask "What is negligence?") fresh_session s' t q
           eq_refl Hrun).
Defined.

(** C9. A query that is empty or made of whitespace only is turned down by
    the handler with an error message; neither [rag_advanced] nor the LLM is
    called, no result is produced and the session is left as it was. *)
Theorem blank_query_is_rejected (w : World) (u : UI) (s : session) :
  get_legal_answer u = true ->
  forallb isspace (query u) = true ->
  handle_query w u s =
  (s, [st_error (lit "Please enter a legal question")], Ok None).
Proof.
  intros Hb Hq. apply strip_nil_iff in Hq.
  unfold handle_query. rewrite Hb, Hq. reflexivity.
Qed.

Lemma blank_query_is_rejected_witness :
  handle_query Samples.world_no_store (Samples.ask "  ")
    Samples.ready_session =
  (Samples.ready_session,
   [st_error (lit "Please enter a legal question")], Ok None).
Proof.
  apply blank_query_is_rejected; vm_compute; reflexivity.
Defined.

(** ** The two loaders *)

Lemma rtry_Raise {A} (body : result A) (h : exc -> A) (e : exc) :
  rtry body (fun e => Ok (h e)) = Raise e ->
  body = Raise e /\ is_Exception e = false.
Proof.
  unfold rtry. destruct body as [a|e0]; [discriminate|].
  destruct (is_Exception e0) eqn:He; [discriminate|].
  intros H; inversion H; subst. split; [reflexivity | exact He].
Qed.

Lemma rtry_caught {A} (body : result A) (h : exc -> result A) (e : exc) :
  body = Raise e -> is_Exception e = true -> rtry body h = h e.
Proof. intros -> He. unfold rtry. rewrite He. reflexivity. Qed.



(** ** C4 *)



(** ** C3 *)




(** What the sidebar does with an opened store, empty or not: it keeps the
    store and stops on line 107 with a [NameError]; the handler is not
    reached in that run. *)
Lemma opened_store_stops_the_script (w : World) (u : UI) (s : session)
    (vs : VectorStore) (status : str) :
  rag_initialized s = true -> vector_store_ready s = false ->
  load_vector_store_lazy w = Ok (Some vs, status) ->
  script w u s =
  (keep_store vs s,
   [st_header (lit "📊 System Status");
    st_spinner (lit "Loading legal database...")],
   Raise (Error "NameError" (lit "name 'RagRetriever' is not defined"))).
Proof.
  intros Hi Hv Hl. rewrite script_unfold.
  rewrite (sidebar_status_store_opened w s vs status Hi Hv Hl). reflexivity.
Qed.

(** With a populated store on disk, the first run from a fresh session
    initialises the system, keeps the opened store and stops with the
    [NameError]; the question is not answered on either path. *)
Example populated_store_first_run :
  script Samples.world_one_chunk (Samples.ask "What is negligence?")
    fresh_session =
  (keep_store (Samples.store_of [Samples.negligence_chunk [0.92%Q; 0%Q]])
     Samples.ready_session,
   [st_header (lit "📊 System Status");
    st_spinner (lit "Loading AI components...");
    st_success (lit "✅ AI System Ready");
    st_spinner (lit "Loading legal database...")],
   Raise (Error "NameError" (lit "name 'RagRetriever' is not defined"))).
Proof. vm_compute. reflexivity. Qed.

(** A request that passes the two tests of the handler while
    [rag_advanced] cannot be imported enters neither path: an import error
    is shown in place of an answer, any other signal leaves the handler. *)
Lemma handle_query_import_Raise (w : World) (u : UI) (s : session)
    (e : exc) :
  get_legal_answer u = true -> strip (query u) <> [] ->
  rag_initialized s = true ->
  import_from w ["rag_advanced"]%string = Raise e ->
  exists t r, handle_query w u s = (s, t, r) /\
    mode_of_trace t = None /\
    (is_Exception e = true ->
     r = Ok None /\
     In (st_error (lit "Error processing query: " ++ exc_str e)) t) /\
    (is_Exception e = false -> r = Raise e).
Proof.
  intros Hb Hq Hi Himp.
  unfold handle_query. rewrite Hb.
  destruct (strip (query u)) as [|c q']; [contradiction|]. simpl.
  unfold bind at 1, get at 1. rewrite Hi. simpl.
  unfold mtry, research, bind, emit, lift, get, ret, session_attr.
  rewrite Himp.
  destruct (is_Exception e); eexists; eexists;
    (split; [reflexivity|]); (split; [reflexivity|]);
    (split; [|discriminate || reflexivity]);
    try discriminate.
  intros _. split; [reflexivity|]. simpl. right. left. reflexivity.
Qed.

(** ** C10 *)

(** C10, as stated, fails.  When [RagFullPipeline] cannot be imported,
    [initialize_minimal_rag] returns a triple, and the application does not
    go on in generation-only mode: the question is turned down with "System
    not ready", the LLM is not called and there is no result.  And what
    [except Exception] does not catch is passed on: a [SystemExit] raised
    inside [initialize_llm()] leaves [initialize_minimal_rag]. *)
Lemma failed_initialisation_counterexample :
  initialize_minimal_rag Samples.world_no_pipeline =
    Ok (None, None, Some (lit "No module named 'RagFullPipeline'")) /\
  script Samples.world_no_pipeline (Samples.ask "What is negligence?")
    fresh_session =
  (fresh_session,
   [st_header (lit "📊 System Status");
    st_spinner (lit "Loading AI components...");
    st_error (lit "❌ System initialization failed");
    st_header (lit "⚙️ Settings");
    st_subheader (lit "🔍 Ask a Legal Question");
    st_error (lit "System not ready. Please check status.")],
   Ok None) /\
  initialize_minimal_rag Samples.world_llm_exits = Raise (SystemExit 1).
Proof. repeat split; vm_compute; reflexivity. Qed.

(** C10, amended.  Neither [initialize_minimal_rag] nor
    [load_vector_store_lazy] passes an error (an instance of [Exception])
    on to its caller; what [except Exception] does not catch is passed on.
    - An error inside [load_vector_store_lazy] gives the pair
      [(None, "Database error: ...")]; on an initialised session whose
      store is not marked ready and that holds the LLM and no retriever,
      the sidebar then announces the AI-only mode, and a request that is
      not blank takes the generation-only path when [rag_advanced] can be
      imported; when that import fails as well, it takes neither path, and
      the import error, if it is an error, is shown in place of an answer.
    - An error inside [initialize_minimal_rag] gives the triple
      [(None, None, message)], and a falsy [initialize_llm()] the triple
      [(None, None, None)]; the session then stays uninitialised and every
      question is turned down with "System not ready", without a call of
      the LLM. *)
Theorem failures_are_reported (w : World) :
  (forall e, is_Exception e = true ->
     initialize_minimal_rag w <> Raise e /\
     load_vector_store_lazy w <> Raise e) /\
  (forall e, is_Exception e = false ->
     (initialize_minimal_rag_try w = Raise e ->
      initialize_minimal_rag w = Raise e) /\
     (load_vector_store_lazy_try w = Raise e ->
      load_vector_store_lazy w = Raise e)) /\
  (forall e, is_Exception e = true ->
     load_vector_store_lazy_try w = Raise e ->
     load_vector_store_lazy w = Ok (None, lit "Database error: " ++ exc_str e) /\
     forall u s l,
       rag_initialized s = true -> vector_store_ready s = false ->
       retriever s = None -> llm s = Some l ->
       get_legal_answer u = true -> strip (query u) <> [] ->
       exists t r, script w u s = (s, t, r) /\
         In (st_info (lit "💡 Using AI-only mode")) t /\
         (import_from w ["rag_advanced"]%string = Ok tt ->
          mode_of_trace t = Some GENERATION_ONLY) /\
         (forall e',
            import_from w ["rag_advanced"]%string = Raise e' ->
            mode_of_trace t = None /\
            (is_Exception e' = true ->
             r = Ok None /\
             In (st_error (lit "Error processing query: " ++ exc_str e'))
                t))) /\
  (forall status,
     initialize_minimal_rag w = Ok (None, None, status) <->
     (exists e, is_Exception e = true /\
                initialize_minimal_rag_try w = Raise e /\
                status = Some (exc_str e)) \/
     (import_from w ["initialize_llm"; "EmbeddingManager"]%string = Ok tt /\
      initialize_llm w = Ok None /\ status = None)) /\
  (forall status u s,
     initialize_minimal_rag w = Ok (None, None, status) ->
     rag_initialized s = false ->
     get_legal_answer u = true -> strip (query u) <> [] ->
     exists t, script w u s = (s, t, Ok None) /\
       In (st_error (lit "System not ready. Please check status.")) t /\
       mode_of_trace t = None).
Proof.
  split; [|split; [|split; [|split]]].
  - intros e He. split; intros H; apply rtry_Raise in H as [_ H];
      congruence.
  - intros e He.
    unfold initialize_minimal_rag, load_vector_store_lazy, rtry.
    split; intros ->; rewrite He; reflexivity.
  - intros e He Hbody.
    assert (Hload : load_vector_store_lazy w =
                    Ok (None, lit "Database error: " ++ exc_str e)).
    { unfold load_vector_store_lazy.
      rewrite (rtry_caught _ _ e Hbody He). reflexivity. }
    split; [exact Hload|].
    intros u s l Hinit Hready Hret Hl Hb Hq.
    rewrite script_unfold.
    rewrite (sidebar_status_ai_only w s _ Hinit Hready Hload).
    destruct (import_from w ["rag_advanced"]%string) as [[]|e'] eqn:Himp.
    + destruct (handle_query_valid w u s l Hb Hq Hinit Hl Himp)
        as (t & r & Hh & Hm & _).
      rewrite Hh. eexists. eexists. split; [reflexivity|].
      split; [simpl; tauto|].
      split; [|discriminate].
      intros _. simpl. rewrite Hm. unfold dispatch. rewrite Hret.
      reflexivity.
    + destruct (handle_query_import_Raise w u s e' Hb Hq Hinit Himp)
        as (t & r & Hh & Hm & Herr & _).
      rewrite Hh. eexists. eexists. split; [reflexivity|].
      split; [simpl; tauto|].
      split; [discriminate|].
      intros e0 H0. inversion H0; subst e0.
      split; [simpl; exact Hm|].
      intros He'. destruct (Herr He') as [-> Hin].
      split; [reflexivity|].
      apply in_or_app. right. right. right. exact Hin.
  - intros status.
    unfold initialize_minimal_rag, initialize_minimal_rag_try, rtry, rbind.
    split.
    + destruct (import_from w _) as [[]|e] eqn:Hi.
      * destruct (initialize_llm w) as [[l|]|e] eqn:Hllm.
        -- destruct (new_EmbeddingManager w) as [em|e]; [discriminate|].
           destruct (is_Exception e) eqn:He; [|discriminate].
           intros H; inversion H; subst. left. exists e. auto.
        -- intros H; inversion H; subst. right. auto.
        -- destruct (is_Exception e) eqn:He; [|discriminate].
           intros H; inversion H; subst. left. exists e. auto.
      * destruct (is_Exception e) eqn:He; [|discriminate].
        intros H; inversion H; subst. left. exists e. auto.
    + intros [(e & He & Hbody & ->)|(Hi & Hllm & ->)].
      * rewrite Hbody, He. reflexivity.
      * rewrite Hi, Hllm. reflexivity.
  - intros status u s Hinit Hs Hb Hq.
    rewrite script_unfold.
    rewrite (sidebar_status_not_ready w s None status Hs Hinit).
    unfold handle_query. rewrite Hb.
    destruct (strip (query u)) as [|c q']; [contradiction|]. simpl.
    unfold bind at 1, get at 1. rewrite Hs. simpl.
    eexists. split; [reflexivity|].
    split; [simpl; do 5 right; left; reflexivity | reflexivity].
Qed.

Lemma failures_are_reported_witness :
  load_vector_store_lazy Samples.world_broken_store =
    Ok (None, lit "Database error: " ++ lit "corrupt index") /\
  exists t r,
    script Samples.world_no_pipeline (Samples.ask "What is negligence?")
      Samples.ready_session = (Samples.ready_session, t, r) /\
    In (st_info (lit "💡 Using AI-only mode")) t /\
    mode_of_trace t = None /\ r = Ok None.
Proof.
  split.
  - destruct (failures_are_reported Samples.world_broken_store)
      as (_ & _ & H & _).
    apply (H (Error "RuntimeError" (lit "corrupt index")) eq_refl eq_refl).
  - destruct (failures_are_reported Samples.world_no_pipeline)
      as (_ & _ & H & _).
    destruct (H (Error "ModuleNotFoundError"
                   (lit "No module named 'RagFullPipeline'"))
                eq_refl eq_refl) as [_ Hrun].
    assert (Hq : strip (query (Samples.ask "What is negligence?")) <> []).
    { vm_compute. discriminate. }
    destruct (Hrun (Samples.ask "What is negligence?")
                Samples.ready_session Samples.the_llm
                eq_refl eq_refl eq_refl eq_refl eq_refl Hq)
      as (t & r & Hscript & Hinfo & _ & Hfail).
    destruct (Hfail (Error "ModuleNotFoundError"
                       (lit "No module named 'RagFullPipeline'")) eq_refl)
      as [Hm Hr].
    destruct (Hr eq_refl) as [Hnone _].
    exists t, r. auto.
Defined.

(** ** C5 *)

(** C5. Once [VectorStore] is imported, the index-build driver ends with
    exit status 1 whenever building the store (or counting it) raises an
    error, after printing the error; when the build succeeds it prints the
    number of documents and the time between its two readings of the clock
    and ends with status 0. *)
Theorem prebuild_fails_loudly (w : World) :
  import_from w ["VectorStore"]%string = Ok tt ->
  (forall e, is_Exception e = true ->
     new_VectorStore w (lit "./prebuilt_vector_store") true (Some (lit "."))
       = Raise e \/
     (exists vs,
        new_VectorStore w (lit "./prebuilt_vector_store") true
          (Some (lit ".")) = Ok vs /\
        collection_count w vs = Raise e) ->
     Prebuild.run w =
     ([print [Txt (lit "🚀 Pre-building vector store...")];
       print [Txt (lit "❌ Error building vector store: "); Txt (exc_str e)]],
      1) /\
     snd (Prebuild.run w) <> 0) /\
  (forall vs n,
     new_VectorStore w (lit "./prebuilt_vector_store") true (Some (lit "."))
       = Ok vs ->
     collection_count w vs = Ok n ->
     Prebuild.run w =
     ([print [Txt (lit "🚀 Pre-building vector store...")];
       print [Txt (lit "✅ Vector store built successfully!")];
       print [Txt (lit "📚 Documents: "); Txt (str_of_int n)];
       print [Txt (lit "⏱️ Time taken: ");
              Fmt ".2f" (clock w 1 - clock w 0)%Q;
              Txt (lit " seconds")]],
      0)).
Proof.
  intros Hi.
  unfold Prebuild.run, Prebuild.main, Prebuild.prebuild_vector_store,
    Prebuild.time_time, mtry, bind, emit, lift, sys_exit.
  rewrite Hi. split.
  - intros e He [Hv|(vs & Hv & Hc)]; rewrite Hv; simpl; rewrite ?Hc, He;
      simpl; (split; [reflexivity | discriminate]).
  - intros vs n Hv Hc. rewrite Hv. simpl. rewrite Hc. reflexivity.
Qed.

Lemma prebuild_fails_loudly_witness :
  Prebuild.run Samples.world_broken_store =
  ([print [Txt (lit "🚀 Pre-building vector store...")];
    print [Txt (lit "❌ Error building vector store: ");
           Txt (lit "corrupt index")]],
   1) /\
  Prebuild.run Samples.world_empty_store =
  ([print [Txt (lit "🚀 Pre-building vector store...")];
    print [Txt (lit "✅ Vector store built successfully!")];
    print [Txt (lit "📚 Documents: "); Txt (str_of_int 0)];
    print [Txt (lit "⏱️ Time taken: "); Fmt ".2f" (1 - 0)%Q;
           Txt (lit " seconds")]],
   0).
Proof.
  split.
  - destruct (prebuild_fails_loudly Samples.world_broken_store eq_refl)
      as [H _].
    apply (H (Error "RuntimeError" (lit "corrupt index")) eq_refl).
    left. reflexivity.
  - destruct (prebuild_fails_loudly Samples.world_empty_store eq_refl)
      as [_ H].
    apply (H (Samples.store_of []) 0); reflexivity.
Defined.

(* ================================================================== *)
(** * The pipeline of the design document *)

Section PipelineFacts.

Variable similarity : list Q -> list Q -> Q.
Variable preview_length : nat.
Variable generate : LLM -> str -> result Response.

Import RagFullPipeline.

Lemma Qle_bool_false (x y : Q) : Qle_bool x y = false -> (y < x)%Q.
Proof.
  intros H. apply Qnot_le_lt. intros Hle.
  apply Qle_bool_iff in Hle. congruence.
Qed.

Lemma insert_desc_Forall (P : DocumentChunk * Q -> Prop) x l :
  P x -> Forall P l -> Forall P (insert_desc x l).
Proof.
  intros Hx. induction 1 as [|y t Hy Ht IH]; simpl.
  - constructor; [exact Hx | constructor].
  - destruct (Qle_bool (snd y) (snd x)); repeat constructor; assumption.
Qed.

Lemma insert_desc_sorted x l :
  StronglySorted ranked l ->
  StronglySorted ranked (insert_desc x l).
Proof.
  induction 1 as [|y t Hs IH Hy]; simpl.
  - repeat constructor.
  - destruct (Qle_bool (snd y) (snd x)) eqn:Hc.
    + apply Qle_bool_iff in Hc.
      constructor; [constructor; assumption|].
      constructor; [exact Hc|].
      eapply Forall_impl; [|exact Hy].
      intros z Hz. unfold ranked in *. eapply Qle_trans; eassumption.
    + apply Qle_bool_false in Hc.
      constructor; [exact IH|].
      apply insert_desc_Forall; [|exact Hy].
      unfold ranked. apply Qlt_le_weak. exact Hc.
Qed.

Lemma rank_Forall (P : DocumentChunk * Q -> Prop) l :
  Forall P l -> Forall P (rank l).
Proof.
  induction 1; simpl; [constructor|].
  apply insert_desc_Forall; assumption.
Qed.

Lemma rank_sorted l : StronglySorted ranked (rank l).
Proof.
  induction l as [|x t IH]; simpl; [constructor|].
  apply insert_desc_sorted. exact IH.
Qed.

Lemma firstn_Forall {A} (P : A -> Prop) (k : nat) (l : list A) :
  Forall P l -> Forall P (firstn k l).
Proof.
  intros H. revert k. induction H; intros [|k]; simpl; constructor; auto.
Qed.

Lemma firstn_sorted {A} (R : A -> A -> Prop) (k : nat) (l : list A) :
  StronglySorted R l -> StronglySorted R (firstn k l).
Proof.
  intros H. revert k.
  induction H as [|x t Hs IH Hx]; intros [|k]; simpl; constructor.
  - apply IH.
  - apply firstn_Forall. exact Hx.
Qed.

Lemma filter_Forall {A} (P : A -> Prop) (f : A -> bool) (l : list A) :
  Forall P l -> Forall P (filter f l).
Proof.
  induction 1; simpl; [constructor|].
  destruct (f x); [constructor|]; assumption.
Qed.

Lemma filter_sorted {A} (R : A -> A -> Prop) (f : A -> bool) (l : list A) :
  StronglySorted R l -> StronglySorted R (filter f l).
Proof.
  induction 1 as [|x t Hs IH Hx]; simpl; [constructor|].
  destruct (f x); [|exact IH].
  constructor; [exact IH|]. apply filter_Forall. exact Hx.
Qed.

Lemma filter_holds {A} (f : A -> bool) (l : list A) :
  Forall (fun x => f x = true) (filter f l).
Proof.
  induction l as [|x t IH]; simpl; [constructor|].
  destruct (f x) eqn:Hf; [constructor|]; assumption.
Qed.

Lemma filter_none {A} (f : A -> bool) (l : list A) :
  Forall (fun x => f x = false) l -> filter f l = [].
Proof.
  induction 1 as [|x t Hx Ht IH]; simpl; [reflexivity|].
  rewrite Hx. exact IH.
Qed.

Lemma map_to_source_sorted l :
  StronglySorted ranked l ->
  StronglySorted descending
    (map (to_source preview_length) l).
Proof.
  induction 1 as [|x t Hs IH Hx]; simpl; constructor; [exact IH|].
  apply Forall_map. exact Hx.
Qed.

(** What the retriever returns is ranked and clears the threshold. *)
Lemma retrieve_sorted rr q k threshold :
  StronglySorted descending (retrieve similarity preview_length rr q k threshold).
Proof.
  unfold retrieve, search.
  apply map_to_source_sorted, filter_sorted, firstn_sorted, rank_sorted.
Qed.

Lemma retrieve_above rr q k threshold :
  Forall (fun src => (threshold <= score src)%Q) (retrieve similarity preview_length rr q k threshold).
Proof.
  unfold retrieve.
  apply Forall_map.
  eapply Forall_impl; [|apply filter_holds].
  intros cs H. simpl. apply Qle_bool_iff. exact H.
Qed.

(** Nothing is retrieved when every chunk of the store scores below the
    threshold. *)
Lemma retrieve_below rr q k threshold :
  Forall (fun c =>
            (similarity (model (manager rr) q) (embedding c) < threshold)%Q)
         (collection (vector_store rr)) ->
  retrieve similarity preview_length rr q k threshold = [].
Proof.
  intros H. unfold retrieve, search.
  rewrite filter_none; [reflexivity|].
  apply firstn_Forall, rank_Forall, Forall_map.
  eapply Forall_impl; [|exact H].
  intros c Hc. simpl.
  destruct (Qle_bool threshold _) eqn:Hle; [|reflexivity].
  apply Qle_bool_iff in Hle. exfalso.
  exact (Qlt_not_le _ _ Hc Hle).
Qed.

Lemma clamp01_bounds (x : Q) :
  (0 <= clamp01 x <= 1)%Q.
Proof.
  unfold clamp01.
  destruct (Qle_bool x 0) eqn:H0.
  - split; [apply Qle_refl | discriminate].
  - destruct (Qle_bool 1 x) eqn:H1.
    + split; [discriminate | apply Qle_refl].
    + apply Qle_bool_false in H0, H1.
      split; apply Qlt_le_weak; assumption.
Qed.

Lemma baseline_bounds : (0 <= llm_only_confidence <= 1)%Q.
Proof. split; discriminate. Qed.

Lemma confidence_of_bounds (l : list ScoredSource) :
  (0 <= confidence_of l <= 1)%Q.
Proof.
  destruct l as [|top rest]; simpl.
  - exact baseline_bounds.
  - apply clamp01_bounds.
Qed.

(** Over an empty store nothing is retrieved either. *)
Lemma retrieve_empty rr q k threshold :
  collection (vector_store rr) = [] ->
  retrieve similarity preview_length rr q k threshold = [].
Proof.
  intros H. apply retrieve_below. rewrite H. constructor.
Qed.

(** A result of [rag_advanced] carries what was retrieved, the confidence
    the policy gives it and the completion of the prompt built from it. *)
Lemma rag_advanced_Ok_inv q rr l k threshold rc (r : QueryResult) :
  RagFullPipeline.rag_advanced similarity preview_length generate q rr l k
    threshold rc = Ok r ->
  sources r = retrieve similarity preview_length rr q k threshold /\
  confidence r = confidence_of (sources r) /\
  exists response,
    generate l (build_prompt q (sources r)) = Ok response /\
    answer r = content response.
Proof.
  unfold RagFullPipeline.rag_advanced.
  destruct (generate l _) as [response|e] eqn:Hg.
  - intros H; inversion H; subst; simpl.
    split; [reflexivity|]. split; [reflexivity|].
    exists response. split; [exact Hg | reflexivity].
  - destruct (is_Exception e); discriminate.
Qed.

(** With a retriever over an empty store, [rag_advanced] answers like the
    LLM-only branch of the script: no sources, the baseline confidence. *)
Lemma rag_advanced_empty_store q rr l k threshold rc (r : QueryResult) :
  collection (vector_store rr) = [] ->
  RagFullPipeline.rag_advanced similarity preview_length generate q rr l k
    threshold rc = Ok r ->
  sources r = [] /\ confidence r = llm_only_confidence.
Proof.
  intros Hempty Hr.
  apply rag_advanced_Ok_inv in Hr as (Hs & Hc & _).
  rewrite (retrieve_empty rr q k threshold Hempty) in Hs.
  rewrite Hc, Hs. split; reflexivity.
Qed.

End PipelineFacts.

(** Chunks of equal score keep the order in which they were inserted. *)
Example rank_is_stable :
  map (fun cs => id (fst cs))
    (RagFullPipeline.rank
       [({| id := lit "a"; text := []; source_name := []; chunk_page := None;
            embedding := [] |}, 0.5%Q);
        ({| id := lit "b"; text := []; source_name := []; chunk_page := None;
            embedding := [] |}, 0.9%Q);
        ({| id := lit "c"; text := []; source_name := []; chunk_page := None;
            embedding := [] |}, 0.5%Q)])
  = [lit "b"; lit "a"; lit "c"].
Proof. vm_compute. reflexivity. Qed.

(** The scenario of the design document: one chunk that scores 0.92 for the
    query, [min_score = 0.3], [top_k = 3].  There is one source, its score
    is 0.92 and the confidence is above 0.9. *)
Example negligence_scenario :
  match
    RagFullPipeline.rag_advanced RagFullPipeline.inner_product 300
      (fun _ _ => Ok {| content := lit "Answer from the sources." |})
      (lit "What is negligence?")
      {| vector_store :=
           Samples.store_of [Samples.negligence_chunk [0.92%Q; 0%Q]];
         manager := Samples.the_manager |}
      Samples.the_llm 3 0.3%Q false
  with
  | Ok r =>
    match sources r with
    | [src] => (score src == 0.92)%Q /\ (0.9 < confidence r)%Q
    | _ => False
    end
  | Raise _ => False
  end.
Proof. vm_compute. split; reflexivity. Qed.

(** A result of the script, in a world whose [rag_advanced] is the one of
    the design document, is the bare result of the LLM-only branch or a
    result of that [rag_advanced] for the settings of the page. *)
Lemma script_result_cases (similarity : list Q -> list Q -> Q)
    (preview_length : nat) (w : World) (u : UI) (s s' : session)
    (t : list event) (r : QueryResult) :
  script (with_pipeline similarity preview_length w) u s
    = (s', t, Ok (Some r)) ->
  (sources r = [] /\ confidence r = llm_only_confidence) \/
  (exists rr,
     sources r =
       RagFullPipeline.retrieve similarity preview_length rr (query u)
         (top_k u) (min_score u) /\
     confidence r = RagFullPipeline.confidence_of (sources r)).
Proof.
  intros Hrun.
  apply script_Some_inv in Hrun as (s1 & t1 & _ & Hres).
  apply research_Ok_inv in Hres as (_ & _ & l & _ & Hcase).
  destruct (retriever s1) as [rr|].
  - right. exists rr. simpl in Hcase.
    apply rag_advanced_Ok_inv in Hcase as (Hs & Hc & _).
    split; assumption.
  - left. destruct Hcase as (response & _ & ->). split; reflexivity.
Qed.

(** ** C2 *)

(** C2. The confidence of every result lies in [0,1]: it is 0.8 on the
    generation-only path and a clamped value, or the baseline, on the
    retrieval-augmented path. *)
Theorem confidence_in_unit_interval (similarity : list Q -> list Q -> Q)
    (preview_length : nat) (w : World) (u : UI) (s s' : session)
    (t : list event) (r : QueryResult) :
  script (with_pipeline similarity preview_length w) u s
    = (s', t, Ok (Some r)) ->
  (0 <= confidence r <= 1)%Q.
Proof.
  intros Hrun.
  apply script_result_cases in Hrun as [[_ Hc]|(rr & _ & Hc)]; rewrite Hc.
  - exact baseline_bounds.
  - apply confidence_of_bounds.
Qed.

Lemma confidence_in_unit_interval_witness :
  exists s' t r,
    script Samples.pipeline_world (Samples.ask "What is negligence?")
      (Samples.session_with_retriever
         [Samples.negligence_chunk [0.92%Q; 0%Q]])
      = (s', t, Ok (Some r)) /\
    (confidence r == 0.96)%Q /\ (0 <= confidence r <= 1)%Q.
Proof.
  destruct (script Samples.pipeline_world
              (Samples.ask "What is negligence?")
              (Samples.session_with_retriever
                 [Samples.negligence_chunk [0.92%Q; 0%Q]]))
    as [[s' t] r] eqn:Hrun.
  assert (Hr : exists q, r = Ok (Some q) /\ (confidence q == 0.96)%Q).
  { vm_compute in Hrun. inversion Hrun. eexists. split; reflexivity. }
  destruct Hr as (q & -> & Hq).
  exists s', t, q. split; [reflexivity|]. split; [exact Hq|].
  exact (confidence_in_unit_interval RagFullPipeline.inner_product 300
           Samples.world_no_store (Samples.ask "What is negligence?")
           _ s' t q Hrun).
Defined.

(** ** C6 *)

(** C6. A result with a non-empty list of sources has them in descending
    order of score, each with a score of at least the [min_score] of the
    request. *)
Theorem sources_ranked_above_threshold (similarity : list Q -> list Q -> Q)
    (preview_length : nat) (w : World) (u : UI) (s s' : session)
    (t : list event) (r : QueryResult) :
  script (with_pipeline similarity preview_length w) u s
    = (s', t, Ok (Some r)) ->
  sources r <> [] ->
  StronglySorted RagFullPipeline.descending (sources r) /\
  Forall (fun src => (min_score u <= score src)%Q) (sources r).
Proof.
  intros Hrun Hne.
  apply script_result_cases in Hrun as [[Hs _]|(rr & Hs & _)].
  - contradiction.
  - rewrite Hs. split; [apply retrieve_sorted | apply retrieve_above].
Qed.

Lemma sources_ranked_above_threshold_witness :
  exists s' t r,
    script Samples.pipeline_world (Samples.ask "What is negligence?")
      (Samples.session_with_retriever
         [Samples.negligence_chunk [0.5%Q; 0%Q];
          Samples.negligence_chunk [0.2%Q; 0%Q];
          Samples.negligence_chunk [0.92%Q; 0%Q]])
      = (s', t, Ok (Some r)) /\
    length (sources r) = 2%nat /\
    StronglySorted RagFullPipeline.descending (sources r) /\
    Forall (fun src => (0.3 <= score src)%Q) (sources r).
Proof.
  destruct (script Samples.pipeline_world
              (Samples.ask "What is negligence?")
              (Samples.session_with_retriever
                 [Samples.negligence_chunk [0.5%Q; 0%Q];
                  Samples.negligence_chunk [0.2%Q; 0%Q];
                  Samples.negligence_chunk [0.92%Q; 0%Q]]))
    as [[s' t] r] eqn:Hrun.
  assert (Hr : exists q, r = Ok (Some q) /\ length (sources q) = 2%nat).
  { vm_compute in Hrun. inversion Hrun. eexists. split; reflexivity. }
  destruct Hr as (q & -> & Hq).
  exists s', t, q. split; [reflexivity|]. split; [exact Hq|].
  apply (sources_ranked_above_threshold RagFullPipeline.inner_product 300
           Samples.world_no_store (Samples.ask "What is negligence?")
           _ s' t q Hrun).
  destruct (sources q); [discriminate Hq | discriminate].
Defined.

(** ** C7 *)

(** C7. When every chunk of the store scores below [min_score], populated
    though the store is, the retriever returns nothing; the prompt sent is
    then the generation-only prompt, which is built from the query alone,
    and the request completes with the answer to it, no sources and the
    baseline confidence. *)
Theorem below_threshold_degrades (similarity : list Q -> list Q -> Q)
    (preview_length : nat) (generate : LLM -> str -> result Response)
    (q : str) (rr : RagRetriever) (l : LLM) (k : Z) (threshold : Q)
    (return_context : bool) (response : Response) :
  collection (vector_store rr) <> [] ->
  Forall (fun c =>
            (similarity (model (manager rr) q) (embedding c) < threshold)%Q)
         (collection (vector_store rr)) ->
  generate l (llm_only_prompt q) = Ok response ->
  RagFullPipeline.retrieve similarity preview_length rr q k threshold = [] /\
  RagFullPipeline.build_prompt q
    (RagFullPipeline.retrieve similarity preview_length rr q k threshold)
    = llm_only_prompt q /\
  RagFullPipeline.rag_advanced similarity preview_length generate q rr l k
    threshold return_context =
  Ok {| answer := content response; sources := [];
        confidence := RagFullPipeline.baseline |}.
Proof.
  intros _ Hlow Hgen.
  pose proof (retrieve_below similarity preview_length rr q k threshold Hlow)
    as Hnone.
  unfold RagFullPipeline.rag_advanced. rewrite Hnone. simpl.
  rewrite Hgen. repeat split; reflexivity.
Qed.

Lemma below_threshold_degrades_witness :
  RagFullPipeline.rag_advanced RagFullPipeline.inner_product 300
    (fun _ _ => Ok {| content := lit "Answer of the LLM." |})
    (lit "What is negligence?")
    {| vector_store :=
         Samples.store_of [Samples.negligence_chunk [0.8%Q; 0%Q]];
       manager := Samples.the_manager |}
    Samples.the_llm 3 0.99%Q false =
  Ok {| answer := lit "Answer of the LLM."; sources := [];
        confidence := 0.8%Q |}.
Proof.
  apply (below_threshold_degrades RagFullPipeline.inner_product 300
           (fun _ _ => Ok {| content := lit "Answer of the LLM." |})
           (lit "What is negligence?")
           {| vector_store :=
                Samples.store_of [Samples.negligence_chunk [0.8%Q; 0%Q]];
              manager := Samples.the_manager |}
           Samples.the_llm 3 0.99%Q false
           {| content := lit "Answer of the LLM." |}).
  - discriminate.
  - repeat constructor.
  - reflexivity.
Defined.

(* ================================================================== *)
(** * Further properties of the two scripts *)

(** ** What a run may change in the session *)

(** The sidebar leaves the retriever and the ready flag as they are, keeps
    the components of an initialised session, and never leaves a session
    that says it is initialised without its components. *)
Lemma sidebar_status_frame (w : World) (s s' : session)
    (t : list event) (r : result unit) :
  sidebar_status w s = (s', t, r) ->
  retriever s' = retriever s /\
  vector_store_ready s' = vector_store_ready s /\
  (Trace.components_held s -> Trace.components_held s') /\
  (rag_initialized s = true ->
   rag_initialized s' = true /\ llm s' = llm s /\
   embedding_manager s' = embedding_manager s).
Proof.
  unfold sidebar_status, bind, emit, lift, get, ret, modify.
  rewrite global_name_RagRetriever.
  unfold Trace.components_held.
  destruct (rag_initialized s) eqn:Hi; simpl; rewrite ?Hi; simpl.
  - destruct (vector_store_ready s) eqn:Hv; simpl.
    + intros H; inversion H; subst. repeat split; auto.
    + destruct (load_vector_store_lazy w) as [[[vs|] msg]|e]; simpl;
        intros H; inversion H; subst; simpl;
        repeat split; auto.
  - destruct (initialize_minimal_rag w) as [[[[l|] [em|]] msg]|e]; simpl;
      rewrite ?Hi; simpl;
      try (intros H; inversion H; subst;
           repeat split; auto; congruence).
    destruct (vector_store_ready s) eqn:Hv; simpl.
    + intros H; inversion H; subst; simpl.
      repeat split; eauto; congruence.
    + destruct (load_vector_store_lazy w) as [[[vs|] status]|e']; simpl;
        intros H; inversion H; subst; simpl;
        repeat split; eauto; congruence.
Qed.

Lemma script_frame (w : World) (u : UI) (s s' : session)
    (t : list event) (r : result (option QueryResult)) :
  script w u s = (s', t, r) ->
  retriever s' = retriever s /\
  vector_store_ready s' = vector_store_ready s /\
  (Trace.components_held s -> Trace.components_held s') /\
  (rag_initialized s = true ->
   rag_initialized s' = true /\ llm s' = llm s /\
   embedding_manager s' = embedding_manager s).
Proof.
  rewrite script_unfold.
  destruct (sidebar_status w s) as [[s1 t1] r1] eqn:Hs.
  apply sidebar_status_frame in Hs.
  destruct r1 as [[]|e].
  - destruct (handle_query w u s1) as [[s2 t2] r2] eqn:Hh.
    apply handle_query_session in Hh as [-> _].
    intros H; inversion H; subst. exact Hs.
  - intros H; inversion H; subst. exact Hs.
Qed.

(** *** The spinners of a run *)

Lemma spinners_app (t1 t2 : list event) :
  Trace.spinners (t1 ++ t2) = Trace.spinners t1 ++ Trace.spinners t2.
Proof.
  induction t1 as [|e t1 IH]; simpl; [reflexivity|].
  destruct e; simpl; rewrite IH; reflexivity.
Qed.

Lemma spinners_In (t : list event) (body : str) :
  In (st_spinner body) t -> In body (Trace.spinners t).
Proof.
  induction t as [|e t IH]; simpl; [exact (fun H => H)|].
  intros [->|H]; [left; reflexivity|].
  destruct e; simpl; auto.
Qed.

Lemma show_sources_spinners (l : list ScoredSource) :
  forall i s, exists t,
    show_sources i l s = (s, t, Ok tt) /\ Trace.spinners t = [].
Proof.
  induction l as [|src rest IH]; intros i s; simpl.
  - exists []. split; reflexivity.
  - destruct (IH (i + 1) s) as [t [Ht Hm]].
    unfold bind, emit. rewrite Ht.
    eexists. split; [reflexivity | exact Hm].
Qed.

Lemma show_result_spinners (r : QueryResult) (s : session) :
  exists t, show_result r s = (s, t, Ok tt) /\ Trace.spinners t = [].
Proof.
  unfold show_result.
  assert (Hsrc : exists t,
    match sources r with
    | [] => ret tt
    | _ :: _ =>
      (emit (st_subheader (lit "📚 Legal Sources")) ;;
       show_sources 1 (sources r))%st
    end s = (s, t, Ok tt) /\ Trace.spinners t = []).
  { destruct (sources r) as [|src rest].
    - exists []. split; reflexivity.
    - destruct (show_sources_spinners (src :: rest) 1 s) as [t [Ht Hm]].
      unfold bind, emit. rewrite Ht.
      eexists. split; [reflexivity | exact Hm]. }
  destruct Hsrc as [t [Ht Hm]].
  unfold bind, emit, ret in *.
  destruct (negb (Qeq_bool (confidence r) 0)); rewrite Ht;
    eexists; (split; [reflexivity | exact Hm]).
Qed.

(** The handler opens no spinner but its own. *)
Lemma handle_query_spinners (w : World) (u : UI) (s s' : session)
    (t : list event) (r : result (option QueryResult)) :
  handle_query w u s = (s', t, r) ->
  incl (Trace.spinners t) [lit "🔍 Researching legal sources..."].
Proof.
  unfold handle_query.
  destruct (get_legal_answer u);
    [|intros H; inversion H; intros x []].
  destruct (truthy_str (strip (query u))); simpl;
    [|intros H; inversion H; intros x []].
  unfold bind at 1, get at 1.
  destruct (rag_initialized s); simpl;
    [|intros H; inversion H; intros x []].
  assert (Hres : exists t1 r1,
    research w u s = (s, t1, r1) /\
    Trace.spinners t1 = [lit "🔍 Researching legal sources..."]).
  { unfold research, bind, emit, lift, get, ret, session_attr.
    destruct (import_from w _) as [[]|e];
      [|eexists; eexists; split; reflexivity].
    destruct (retriever s) as [rr|]; destruct (llm s) as [l|];
      try (eexists; eexists; split; reflexivity).
    - destruct (rag_advanced w _ _ _ _ _ _) as [r0|e];
        [|eexists; eexists; split; reflexivity].
      destruct (show_result_spinners r0 s) as (t0 & Ht0 & Hs0).
      rewrite Ht0. eexists. eexists. split; [reflexivity|].
      simpl. rewrite spinners_app, Hs0. reflexivity.
    - destruct (llm_invoke w _ _) as [resp|e];
        [|eexists; eexists; split; reflexivity].
      match goal with
      | |- context [show_result ?r0 s] =>
        destruct (show_result_spinners r0 s) as (t0 & Ht0 & Hs0)
      end.
      rewrite Ht0. eexists. eexists. split; [reflexivity|].
      simpl. rewrite spinners_app, Hs0. reflexivity. }
  destruct Hres as (t1 & r1 & Hres & Hsp).
  unfold mtry, bind, ret, emit. rewrite Hres.
  destruct r1 as [q|e].
  - intros H; inversion H; subst. rewrite app_nil_r, Hsp.
    apply incl_refl.
  - destruct (is_Exception e); intros H; inversion H; subst;
      rewrite ?spinners_app, Hsp; simpl; apply incl_refl.
Qed.

(** On an initialised session the sidebar opens no spinner but the one of
    the loader. *)
Lemma sidebar_status_spinners (w : World) (s s' : session)
    (t : list event) (r : result unit) :
  rag_initialized s = true ->
  sidebar_status w s = (s', t, r) ->
  incl (Trace.spinners t) [lit "Loading legal database..."].
Proof.
  intros Hi.
  unfold sidebar_status, bind, emit, lift, get, ret, modify.
  rewrite global_name_RagRetriever.
  rewrite Hi. simpl. rewrite Hi. simpl.
  destruct (vector_store_ready s); simpl.
  - intros H; inversion H; subst. intros x [].
  - destruct (load_vector_store_lazy w) as [[[vs|] msg]|e]; simpl;
      intros H; inversion H; subst; simpl; apply incl_refl.
Qed.

(** *** Worlds that differ in the initialisation only *)

Lemma load_vector_store_lazy_agree (w w' : World) :
  Trace.same_but_initialisation w w' ->
  load_vector_store_lazy w = load_vector_store_lazy w'.
Proof.
  intros (Himp & Hpath & Hnew & Hcount & _).
  unfold load_vector_store_lazy, load_vector_store_lazy_try, rbind.
  rewrite <- (Himp ["VectorStore"; "RagRetriever"]%string)
    by discriminate.
  rewrite <- Hpath, <- Hnew.
  destruct (import_from w _) as [[]|e]; [|reflexivity].
  destruct (path_exists w persist_dir); simpl; [|reflexivity].
  destruct (new_VectorStore w persist_dir true None) as [vs|e];
    [|reflexivity].
  rewrite <- Hcount. reflexivity.
Qed.

Lemma research_agree (w w' : World) (u : UI) (s : session) :
  Trace.same_but_initialisation w w' ->
  research w u s = research w' u s.
Proof.
  intros (Himp & _ & _ & _ & Hrag & Hllm).
  unfold research, bind, emit, lift, get, ret, session_attr.
  rewrite <- (Himp ["rag_advanced"]%string) by discriminate.
  destruct (import_from w _) as [[]|e]; [|reflexivity].
  destruct (retriever s) as [rr|]; destruct (llm s) as [l|];
    try reflexivity.
  - rewrite <- Hrag. reflexivity.
  - rewrite <- Hllm. reflexivity.
Qed.

Lemma handle_query_agree (w w' : World) (u : UI) (s : session) :
  Trace.same_but_initialisation w w' ->
  handle_query w u s = handle_query w' u s.
Proof.
  intros Hsame. unfold handle_query.
  destruct (get_legal_answer u); [|reflexivity].
  destruct (truthy_str (strip (query u))); simpl; [|reflexivity].
  unfold mtry, bind, get, ret, emit.
  destruct (rag_initialized s); cbv beta iota delta [negb]; [|reflexivity].
  rewrite (research_agree w w' u s Hsame). reflexivity.
Qed.

Lemma sidebar_status_agree (w w' : World) (s : session) :
  rag_initialized s = true ->
  Trace.same_but_initialisation w w' ->
  sidebar_status w s = sidebar_status w' s.
Proof.
  intros Hi Hsame.
  unfold sidebar_status, bind, emit, lift, get, ret, modify.
  rewrite global_name_RagRetriever.
  rewrite Hi. simpl. rewrite Hi. simpl.
  destruct (vector_store_ready s); simpl; [reflexivity|].
  rewrite <- (load_vector_store_lazy_agree w w' Hsame).
  destruct (load_vector_store_lazy w) as [[[vs|] msg]|e]; reflexivity.
Qed.

Lemma script_agree (w w' : World) (u : UI) (s : session) :
  rag_initialized s = true ->
  Trace.same_but_initialisation w w' ->
  script w u s = script w' u s.
Proof.
  intros Hi Hsame. rewrite !script_unfold.
  rewrite <- (sidebar_status_agree w w' s Hi Hsame).
  destruct (sidebar_status w s) as [[s1 t1] [[]|e]]; [|reflexivity].
  rewrite <- (handle_query_agree w w' u s1 Hsame). reflexivity.
Qed.

(** X1. Once the session is initialised, a run of the script changes
    nothing in it but, possibly, the stored vector store: the flag stays
    up, the LLM and the embedding manager are the ones already held, and
    the retriever and the ready flag are left as they were.  The
    initialisation is not run again: the run does not open the spinner
    "Loading AI components...", and it goes the same way, to the same
    session, trace and outcome, in every world that differs only in what
    the import, [initialize_llm()] and [EmbeddingManager()] of
    [initialize_minimal_rag] would give. *)
Theorem initialised_session_is_kept (w : World) (u : UI) (s s' : session)
    (t : list event) (r : result (option QueryResult)) :
  rag_initialized s = true ->
  script w u s = (s', t, r) ->
  rag_initialized s' = true /\
  llm s' = llm s /\
  embedding_manager s' = embedding_manager s /\
  retriever s' = retriever s /\
  vector_store_ready s' = vector_store_ready s /\
  ~ In (st_spinner (lit "Loading AI components...")) t /\
  (forall w', Trace.same_but_initialisation w w' ->
              script w' u s = (s', t, r)).
Proof.
  intros Hi Hrun.
  pose proof (script_frame w u s s' t r Hrun) as (Hr & Hv & _ & Hc).
  destruct (Hc Hi) as (H1 & H2 & H3).
  repeat (split; [assumption|]).
  split.
  - intros Hin. apply spinners_In in Hin.
    assert (Hsp : incl (Trace.spinners t)
                    [lit "Loading legal database...";
                     lit "🔍 Researching legal sources..."]).
    { revert Hrun. rewrite script_unfold.
      destruct (sidebar_status w s) as [[s1 t1] r1] eqn:Hs.
      apply (sidebar_status_spinners w s s1 t1 r1 Hi) in Hs.
      destruct r1 as [[]|e].
      - destruct (handle_query w u s1) as [[s2 t2] r2] eqn:Hh.
        apply handle_query_spinners in Hh.
        intros H; inversion H; subst.
        rewrite spinners_app. simpl.
        intros x Hx. apply in_app_or in Hx as [Hx|Hx].
        + left. destruct (Hs x Hx) as [<-|[]]. reflexivity.
        + right. exact (Hh x Hx).
      - intros H; inversion H; subst.
        intros x Hx. left. destruct (Hs x Hx) as [<-|[]]. reflexivity. }
    destruct (Hsp _ Hin) as [H|[H|[]]]; vm_compute in H; discriminate.
  - intros w' Hsame. rewrite <- (script_agree w w' u s Hi Hsame).
    exact Hrun.
Qed.

Lemma initialised_session_is_kept_witness :
  exists s' t r,
    script Samples.world_one_chunk (Samples.ask "What is negligence?")
      Samples.ready_session = (s', t, r) /\
    rag_initialized s' = true /\
    llm s' = Some Samples.the_llm /\
    embedding_manager s' = Some Samples.the_manager /\
    retriever s' = None /\
    vector_store_ready s' = false /\
    ~ In (st_spinner (lit "Loading AI components...")) t /\
    script MoreSamples.world_one_chunk_llm_exits
      (Samples.ask "What is negligence?") Samples.ready_session
    = (s', t, r).
Proof.
  destruct (script Samples.world_one_chunk
              (Samples.ask "What is negligence?") Samples.ready_session)
    as [[s' t] r] eqn:Hrun.
  exists s', t, r. split; [reflexivity|].
  destruct (initialised_session_is_kept Samples.world_one_chunk
              (Samples.ask "What is negligence?") Samples.ready_session
              s' t r eq_refl Hrun)
    as (H1 & H2 & H3 & H4 & H5 & H6 & H7).
  repeat (split; [assumption|]).
  apply H7. repeat split; reflexivity.
Defined.

(** X2. [initialize_minimal_rag] hands back both components or neither:
    an LLM without an embedding manager, or the reverse, is never
    returned.  It hands back both exactly when the import, [initialize_llm()]
    and [EmbeddingManager()] all succeed, and the status is then
    "Components loaded". *)
Theorem initialisation_is_all_or_nothing (w : World) :
  (forall l em status,
     initialize_minimal_rag w = Ok (l, em, status) ->
     (l = None <-> em = None)) /\
  (forall l em status,
     initialize_minimal_rag w = Ok (Some l, Some em, status) <->
     import_from w ["initialize_llm"; "EmbeddingManager"]%string = Ok tt /\
     initialize_llm w = Ok (Some l) /\
     new_EmbeddingManager w = Ok em /\
     status = Some (lit "Components loaded")).
Proof.
  unfold initialize_minimal_rag, initialize_minimal_rag_try, rtry, rbind.
  split.
  - intros l em status.
    destruct (import_from w _) as [[]|e];
      [|destruct (is_Exception e); intros H; inversion H; tauto].
    destruct (initialize_llm w) as [[l0|]|e];
      [| intros H; inversion H; tauto
       | destruct (is_Exception e); intros H; inversion H; tauto].
    destruct (new_EmbeddingManager w) as [em0|e];
      [|destruct (is_Exception e); intros H; inversion H; tauto].
    intros H; inversion H; subst. split; discriminate.
  - intros l em status. split.
    + destruct (import_from w _) as [[]|e];
        [|destruct (is_Exception e); discriminate].
      destruct (initialize_llm w) as [[l0|]|e];
        [| discriminate | destruct (is_Exception e); discriminate].
      destruct (new_EmbeddingManager w) as [em0|e];
        [|destruct (is_Exception e); discriminate].
      intros H; inversion H; subst. auto.
    + intros (Hi & Hl & He & ->). rewrite Hi, Hl, He. reflexivity.
Qed.

(** ** Errors in the handler *)

(** X3. When [llm.invoke] raises an error on the LLM-only path, the
    handler shows "Error processing query: " followed by the text of the
    error and nothing of an answer; it has no result and leaves the session
    as it was. *)
Theorem llm_error_is_shown (w : World) (u : UI) (s : session) (l : LLM)
    (e : exc) :
  get_legal_answer u = true -> strip (query u) <> [] ->
  rag_initialized s = true -> llm s = Some l -> retriever s = None ->
  import_from w ["rag_advanced"]%string = Ok tt ->
  llm_invoke w l (llm_only_prompt (query u)) = Raise e ->
  is_Exception e = true ->
  handle_query w u s =
  (s,
   [st_spinner (lit "🔍 Researching legal sources...");
    invoke l (llm_only_prompt (query u));
    st_error (lit "Error processing query: " ++ exc_str e)],
   Ok None).
Proof.
  intros Hb Hq Hi Hl Hr Himp Hinv He.
  unfold handle_query. rewrite Hb.
  destruct (strip (query u)) as [|c q']; [contradiction|]. simpl.
  unfold bind at 1, get at 1. rewrite Hi. simpl.
  unfold mtry, research, bind, emit, lift, get, ret, session_attr.
  rewrite Himp, Hr, Hl, Hinv, He. reflexivity.
Qed.

Lemma llm_error_is_shown_witness :
  handle_query MoreSamples.world_llm_down
    (Samples.ask "What is negligence?") Samples.ready_session =
  (Samples.ready_session,
   [st_spinner (lit "🔍 Researching legal sources...");
    invoke Samples.the_llm (llm_only_prompt (lit "What is negligence?"));
    st_error (lit "Error processing query: " ++ lit "Connection error.")],
   Ok None).
Proof.
  apply (llm_error_is_shown MoreSamples.world_llm_down
           (Samples.ask "What is negligence?") Samples.ready_session
           Samples.the_llm
           (Error "APIConnectionError" (lit "Connection error.")));
    try reflexivity.
  vm_compute. discriminate.
Defined.

(** X4. When [rag_advanced] raises an error, the handler does not fall
    back on the LLM: it shows the error, calls nothing else and has no
    result. *)
Theorem retrieval_error_has_no_fallback (w : World) (u : UI) (s : session)
    (l : LLM) (rr : RagRetriever) (e : exc) :
  get_legal_answer u = true -> strip (query u) <> [] ->
  rag_initialized s = true -> llm s = Some l -> retriever s = Some rr ->
  import_from w ["rag_advanced"]%string = Ok tt ->
  rag_advanced w (query u) rr l (top_k u) (min_score u) false = Raise e ->
  is_Exception e = true ->
  handle_query w u s =
  (s,
   [st_spinner (lit "🔍 Researching legal sources...");
    call_rag_advanced (query u) rr l (top_k u) (min_score u) false;
    st_error (lit "Error processing query: " ++ exc_str e)],
   Ok None).
Proof.
  intros Hb Hq Hi Hl Hr Himp Hrag He.
  unfold handle_query. rewrite Hb.
  destruct (strip (query u)) as [|c q']; [contradiction|]. simpl.
  unfold bind at 1, get at 1. rewrite Hi. simpl.
  unfold mtry, research, bind, emit, lift, get, ret, session_attr.
  rewrite Himp, Hr, Hl, Hrag, He. reflexivity.
Qed.

Lemma retrieval_error_has_no_fallback_witness :
  handle_query MoreSamples.world_llm_down
    (Samples.ask "What is negligence?")
    (Samples.session_with_retriever []) =
  (Samples.session_with_retriever [],
   [st_spinner (lit "🔍 Researching legal sources...");
    call_rag_advanced (lit "What is negligence?")
      {| vector_store := Samples.store_of [];
         manager := Samples.the_manager |}
      Samples.the_llm 3 0.3%Q false;
    st_error (lit "Error processing query: " ++ lit "retrieval failed")],
   Ok None).
Proof.
  apply (retrieval_error_has_no_fallback MoreSamples.world_llm_down
           (Samples.ask "What is negligence?")
           (Samples.session_with_retriever []) Samples.the_llm
           {| vector_store := Samples.store_of [];
              manager := Samples.the_manager |}
           (Error "RuntimeError" (lit "retrieval failed")));
    try reflexivity.
  vm_compute. discriminate.
Defined.

(** X5. The import of [rag_advanced] comes before the choice of the path:
    when it fails, a question is not answered even on a session without a
    retriever.  The handler shows the import error and calls neither
    [rag_advanced] nor the LLM. *)
Theorem failed_import_blocks_both_paths (w : World) (u : UI) (s : session)
    (e : exc) :
  get_legal_answer u = true -> strip (query u) <> [] ->
  rag_initialized s = true ->
  import_from w ["rag_advanced"]%string = Raise e ->
  is_Exception e = true ->
  handle_query w u s =
  (s,
   [st_spinner (lit "🔍 Researching legal sources...");
    st_error (lit "Error processing query: " ++ exc_str e)],
   Ok None).
Proof.
  intros Hb Hq Hi Himp He.
  unfold handle_query. rewrite Hb.
  destruct (strip (query u)) as [|c q']; [contradiction|]. simpl.
  unfold bind at 1, get at 1. rewrite Hi. simpl.
  unfold mtry, research, bind, emit, lift, get, ret, session_attr.
  rewrite Himp, He. reflexivity.
Qed.

Lemma failed_import_blocks_both_paths_witness :
  handle_query MoreSamples.world_no_rag_advanced
    (Samples.ask "What is negligence?") Samples.ready_session =
  (Samples.ready_session,
   [st_spinner (lit "🔍 Researching legal sources...");
    st_error (lit "Error processing query: "
              ++ lit "cannot import name 'rag_advanced'")],
   Ok None).
Proof.
  apply (failed_import_blocks_both_paths MoreSamples.world_no_rag_advanced
           (Samples.ask "What is negligence?") Samples.ready_session
           (Error "ImportError" (lit "cannot import name 'rag_advanced'")));
    try reflexivity.
  vm_compute. discriminate.
Defined.

(** ** The one error that ends a run *)




(** ** The whole page *)

Import Page.

Lemma example_buttons_spec (c : clicks) (l : list str) (p : page_state) :
  exists p' rerun,
    example_buttons c l p = (p', [], Ok rerun) /\
    state p' = state p /\
    (rerun = false ->
     p' = p /\ forall x, In x l -> example_clicked c x = false) /\
    (rerun = true ->
     exists x, In x l /\ example_clicked c x = true /\
               last_query p' = Some x).
Proof.
  induction l as [|x rest IH]; simpl.
  - exists p, false. repeat split; try discriminate. intros x [].
  - destruct (example_clicked c x) eqn:Hx.
    + eexists. exists true. unfold bind, modify, ret. simpl.
      split; [reflexivity|]. split; [reflexivity|].
      split; [discriminate|]. intros _. exists x. auto.
    + destruct IH as (p' & rerun & Hrun & Hs & Hf & Ht).
      exists p', rerun. split; [exact Hrun|]. split; [exact Hs|]. split.
      * intros Hr. destruct (Hf Hr) as [Hp Hall]. split; [exact Hp|].
        intros y [<-|Hy]; [exact Hx | exact (Hall y Hy)].
      * intros Hr. destruct (Ht Hr) as (y & Hy & Hc & Hq).
        exists y. auto.
Qed.

(** The second column calls neither [rag_advanced] nor the LLM, never
    raises, and does nothing to the session but lower the ready flag. *)
Lemma col2_spec (c : clicks) (p : page_state) :
  exists p' t rerun,
    col2 c p = (p', t, Ok rerun) /\
    mode_of_trace t = None /\
    (state p' = state p \/ state p' = lower_ready (state p)).
Proof.
  unfold col2, bind, emit, modify, ret.
  destruct (example_buttons_spec c examples p)
    as (p1 & rerun & Hrun & Hs & _ & _).
  rewrite Hrun. destruct rerun; simpl.
  - eexists. eexists. eexists. split; [reflexivity|]. split; auto.
  - destruct (refresh_clicked c); simpl;
      (eexists; eexists; eexists; split; [reflexivity|]; split;
       [reflexivity|]); simpl; rewrite Hs; auto.
Qed.

(** A run of the page is a run of the script followed, when the script did
    not raise, by the second column. *)
Lemma page_script_inv (w : World) (u : UI) (c : clicks) (p p' : page_state)
    (t : list event) (r : result (option QueryResult * bool)) :
  page_script w u c p = (p', t, r) ->
  exists s1 t1 r1,
    script w u (state p) = (s1, t1, r1) /\
    (state p' = s1 \/ state p' = lower_ready s1) /\
    match r with
    | Ok (answered, _) => r1 = Ok answered
    | Raise e => r1 = Raise e
    end /\
    mode_of_trace t = mode_of_trace t1.
Proof.
  unfold page_script, bind at 1, on_session.
  destruct (script w u (state p)) as [[s1 t1] [answered|e]] eqn:Hrun.
  - destruct (col2_spec c {| state := s1; last_query := last_query p |})
      as (p2 & t2 & rerun & Hc & Hm & Hs).
    unfold bind at 1. rewrite Hc.
    destruct rerun; unfold footer, bind, emit, ret; simpl;
      intros H; inversion H; subst; clear H;
      exists s1, t1, (Ok answered); (split; [reflexivity|]);
      (split; [exact Hs|]); (split; [reflexivity|]);
      rewrite !mode_of_trace_app, Hm; simpl;
      destruct (mode_of_trace t1); reflexivity.
  - intros H; inversion H; subst.
    exists s1, t, (Raise e). simpl. auto.
Qed.

(** X7. However a visit goes — questions, clicks on the examples,
    refreshes, in whatever worlds — no retriever is ever attached and the
    store is never marked as ready; so every answer a visit shows is the
    answer of the LLM alone, with no sources and confidence 0.8. *)
Theorem visits_are_llm_only (runs : list (World * UI * clicks)) :
  let '(p, outs) := visit runs fresh_page in
  retriever (state p) = None /\
  vector_store_ready (state p) = false /\
  Forall (fun out =>
            forall r rerun, snd out = Ok (Some r, rerun) ->
                            sources r = [] /\ confidence r = 0.8%Q)
         outs.
Proof.
  assert (H : forall p,
    retriever (state p) = None -> vector_store_ready (state p) = false ->
    let '(p', outs) := visit runs p in
    retriever (state p') = None /\
    vector_store_ready (state p') = false /\
    Forall (fun out =>
              forall r rerun, snd out = Ok (Some r, rerun) ->
                              sources r = [] /\ confidence r = 0.8%Q)
           outs).
  { induction runs as [|[[w u] c] rest IH]; intros p Hr Hv; simpl.
    - auto.
    - destruct (page_script w u c p) as [[p1 t] r] eqn:Hrun.
      apply page_script_inv in Hrun
        as (s1 & t1 & r1 & Hscript & Hs & Hres & _).
      pose proof (script_frame w u _ _ _ _ Hscript) as (Hr1 & Hv1 & _).
      assert (Hr' : retriever (state p1) = None).
      { destruct Hs as [->| ->]; simpl; congruence. }
      assert (Hv' : vector_store_ready (state p1) = false).
      { destruct Hs as [->| ->]; simpl; congruence. }
      specialize (IH p1 Hr' Hv').
      destruct (visit rest p1) as [p2 outs].
      destruct IH as (H1 & H2 & H3).
      split; [exact H1|]. split; [exact H2|].
      constructor; [|exact H3].
      simpl. intros q rerun ->. subst r1.
      apply script_Some_inv in Hscript as (s2 & t2 & Hret & Hq).
      apply research_Ok_inv in Hq as (_ & _ & l & _ & Hcase).
      rewrite Hret, Hr in Hcase.
      destruct Hcase as (response & _ & ->). split; reflexivity. }
  apply H; reflexivity.
Qed.

Lemma click_example_clicked (x example : str) :
  example_clicked (click_example example) x = true <-> x = example.
Proof.
  unfold click_example. simpl.
  destruct (list_eq_dec N.eq_dec x example); split; congruence.
Qed.

(** X8. A click on an example question does not ask the question.  In a
    run in which the main button is not pressed, the example's text is put
    under [last_query] (a key nothing reads), [st.rerun()] is called, and
    neither [rag_advanced] nor the LLM is called; there is no result. *)
Theorem example_click_asks_nothing (w : World) (u : UI) (example : str)
    (p p' : page_state) (t : list event) (answered : option QueryResult)
    (rerun : bool) :
  get_legal_answer u = false ->
  In example examples ->
  page_script w u (click_example example) p
    = (p', t, Ok (answered, rerun)) ->
  answered = None /\ rerun = true /\
  last_query p' = Some example /\
  mode_of_trace t = None.
Proof.
  intros Hb Hin.
  unfold page_script, bind at 1, on_session.
  rewrite script_unfold.
  destruct (sidebar_status w (state p)) as [[s1 t1] [[]|e]] eqn:Hs;
    [|discriminate].
  apply sidebar_status_retriever in Hs as [_ Hm1].
  unfold handle_query. rewrite Hb. unfold ret at 1.
  unfold bind at 1, col2, bind at 1, emit at 1, bind at 1.
  destruct (example_buttons_spec (click_example example) examples
              {| state := s1; last_query := last_query p |})
    as (p1 & b & Hrun & _ & Hf & Ht).
  rewrite Hrun. destruct b.
  - destruct (Ht eq_refl) as (x & _ & Hx & Hq).
    apply click_example_clicked in Hx. subst x.
    unfold ret. intros H; inversion H; subst; clear H.
    repeat split; [exact Hq|].
    rewrite !mode_of_trace_app, Hm1. reflexivity.
  - destruct (Hf eq_refl) as [_ Hall].
    specialize (Hall example Hin).
    assert (Hc : example_clicked (click_example example) example = true)
      by (apply click_example_clicked; reflexivity).
    congruence.
Qed.

Lemma example_click_asks_nothing_witness :
  exists p' t,
    page_script Samples.world_no_store MoreSamples.idle
      (click_example (lit "What are the defenses to defamation?"))
      fresh_page = (p', t, Ok (None, true)) /\
    last_query p' = Some (lit "What are the defenses to defamation?") /\
    mode_of_trace t = None.
Proof.
  destruct (page_script Samples.world_no_store MoreSamples.idle
              (click_example (lit "What are the defenses to defamation?"))
              fresh_page) as [[p' t] r] eqn:Hrun.
  assert (Hr : exists a b, r = Ok (a, b)).
  { vm_compute in Hrun. inversion Hrun. eexists. eexists. reflexivity. }
  destruct Hr as (a & b & ->).
  assert (Hin : In (lit "What are the defenses to defamation?") examples).
  { right. right. left. reflexivity. }
  destruct (example_click_asks_nothing Samples.world_no_store
              MoreSamples.idle
              (lit "What are the defenses to defamation?")
              fresh_page p' t a b eq_refl Hin Hrun)
    as (-> & -> & Hq & Hm).
  exists p', t. auto.
Defined.





(** ** The display of a result *)

Lemma show_sources_expanders (l : list ScoredSource) :
  forall i s, exists t,
    show_sources i l s = (s, t, Ok tt) /\
    Trace.metrics t = [] /\
    length (Trace.expanders t) = length l /\
    forall k src,
      nth_error l k = Some src ->
      nth_error (Trace.expanders t) k
        = Some (Trace.source_label (i + Z.of_nat k) src).
Proof.
  induction l as [|src0 rest IH]; intros i s; simpl.
  - exists []. repeat split. intros [|k] src; discriminate.
  - destruct (IH (i + 1) s) as (t & Ht & Hm & Hlen & Hnth).
    unfold bind, emit. rewrite Ht.
    eexists. split; [reflexivity|]. simpl.
    split; [exact Hm|]. split; [f_equal; exact Hlen|].
    intros [|k] src Hk; simpl in *.
    + inversion Hk; subst. rewrite Z.add_0_r. reflexivity.
    + rewrite (Hnth k src Hk). do 2 f_equal. lia.
Qed.

Lemma show_result_trace (r : QueryResult) (s : session) :
  exists t,
    show_result r s = (s, t, Ok tt) /\
    Trace.metrics t =
      (if Qeq_bool (confidence r) 0 then []
       else [[Fmt ".2%" (confidence r)]]) /\
    length (Trace.expanders t) = length (sources r) /\
    forall k src,
      nth_error (sources r) k = Some src ->
      nth_error (Trace.expanders t) k
        = Some (Trace.source_label (Z.of_nat k + 1) src).
Proof.
  unfold show_result.
  assert (Hsrc : exists t,
    match sources r with
    | [] => ret tt
    | _ :: _ =>
      (emit (st_subheader (lit "📚 Legal Sources")) ;;
       show_sources 1 (sources r))%st
    end s = (s, t, Ok tt) /\
    Trace.metrics t = [] /\
    length (Trace.expanders t) = length (sources r) /\
    forall k src,
      nth_error (sources r) k = Some src ->
      nth_error (Trace.expanders t) k
        = Some (Trace.source_label (Z.of_nat k + 1) src)).
  { destruct (show_sources_expanders (sources r) 1 s)
      as (t & Ht & Hm & Hlen & Hnth).
    destruct (sources r) as [|src rest] eqn:Hs.
    - exists []. repeat split. intros [|k] src; discriminate.
    - unfold bind, emit. rewrite Ht.
      eexists. split; [reflexivity|]. simpl.
      split; [exact Hm|]. split; [exact Hlen|].
      intros k src0 Hk. rewrite (Hnth k src0 Hk). do 2 f_equal. lia. }
  destruct Hsrc as (t & Ht & Hm & Hlen & Hnth).
  unfold bind, emit, ret in *.
  destruct (Qeq_bool (confidence r) 0); unfold negb; rewrite Ht;
    eexists; (split; [reflexivity|]); simpl; rewrite Hm;
    (split; [reflexivity|]); split; assumption.
Qed.

(** X10. The display opens one expander per source, in the order of the
    sources; the expander of the k-th source (counted from 0) is labelled
    "Source k+1: <source> (Score: <score>)". *)
Theorem one_expander_per_source (r : QueryResult) (s : session) :
  exists t,
    show_result r s = (s, t, Ok tt) /\
    length (Trace.expanders t) = length (sources r) /\
    forall k src,
      nth_error (sources r) k = Some src ->
      nth_error (Trace.expanders t) k
        = Some (Trace.source_label (Z.of_nat k + 1) src).
Proof.
  destruct (show_result_trace r s) as (t & Ht & _ & Hlen & Hnth).
  exists t. auto.
Qed.

(** X11. The confidence metric is shown exactly when the confidence is not
    zero: a result whose confidence is 0 is displayed without any score,
    and any other result with its confidence as the one metric. *)
Theorem zero_confidence_shows_no_metric (r : QueryResult) (s : session) :
  exists t,
    show_result r s = (s, t, Ok tt) /\
    ((confidence r == 0)%Q -> Trace.metrics t = []) /\
    (~ (confidence r == 0)%Q ->
     Trace.metrics t = [[Fmt ".2%" (confidence r)]]).
Proof.
  destruct (show_result_trace r s) as (t & Ht & Hm & _).
  exists t. split; [exact Ht|].
  destruct (Qeq_bool (confidence r) 0) eqn:Hz.
  - split; [intros _; exact Hm|].
    intros Hn. apply Qeq_bool_iff in Hz. contradiction.
  - split; [|intros _; exact Hm].
    intros Hq. apply Qeq_bool_iff in Hq. congruence.
Qed.

Lemma zero_confidence_shows_no_metric_witness :
  exists t,
    show_result {| answer := lit "No relevant context found.";
                   sources := []; confidence := 0 |}
      Samples.ready_session = (Samples.ready_session, t, Ok tt) /\
    Trace.metrics t = [].
Proof.
  destruct (zero_confidence_shows_no_metric
              {| answer := lit "No relevant context found.";
                 sources := []; confidence := 0 |} Samples.ready_session)
    as (t & Ht & Hz & _).
  exists t. split; [exact Ht|]. apply Hz. reflexivity.
Defined.

Lemma one_expander_per_source_witness :
  exists t,
    show_result {| answer := lit "Answer from the sources.";
                   sources := MoreSamples.two_sources;
                   confidence := 0.96 |}
      Samples.ready_session = (Samples.ready_session, t, Ok tt) /\
    nth_error (Trace.expanders t) 1 =
    Some [Txt (lit "Source "); Txt (str_of_int 2); Txt (lit ": ");
          Txt (lit "contract.pdf"); Txt (lit " (Score: ");
          Fmt ".2f" 0.5; Txt (lit ")")].
Proof.
  destruct (one_expander_per_source
              {| answer := lit "Answer from the sources.";
                 sources := MoreSamples.two_sources;
                 confidence := 0.96 |} Samples.ready_session)
    as (t & Ht & _ & Hnth).
  exists t. split; [exact Ht|].
  exact (Hnth 1%nat
           {| source := lit "contract.pdf"; page := None;
              preview := lit "An offer must be accepted"; score := 0.5 |}
           eq_refl).
Defined.

(** ** The prompt *)

(** X12. The LLM-only prompt determines the question: two different
    questions never give the same prompt.  The question goes in as it was
    typed, surrounding whitespace included. *)
Theorem llm_only_prompt_injective (q1 q2 : str) :
  llm_only_prompt q1 = llm_only_prompt q2 -> q1 = q2.
Proof.
  unfold llm_only_prompt. intros H.
  repeat (apply app_inv_head in H).
  apply app_inv_tail in H. exact H.
Qed.

Lemma llm_only_prompt_injective_witness :
  lit " What is negligence? " = lit " What is negligence? ".
Proof.
  apply llm_only_prompt_injective. reflexivity.
Defined.

(** ** The index-build driver *)

(** X13. When the import at the head of [prebuild.py] fails, nothing is
    printed, not even the announcement or the error line of the driver,
    and an import error ends the process with status 1. *)
Theorem prebuild_import_failure_is_silent (w : World) (e : exc) :
  import_from w ["VectorStore"]%string = Raise e ->
  fst (Prebuild.run w) = [] /\
  (is_Exception e = true -> snd (Prebuild.run w) = 1).
Proof.
  intros Hi.
  unfold Prebuild.run, Prebuild.main, bind, lift. rewrite Hi. simpl.
  split; [reflexivity|].
  destruct e; simpl; [reflexivity | discriminate | discriminate].
Qed.

Lemma prebuild_import_failure_is_silent_witness :
  Prebuild.run Samples.world_no_pipeline = ([], 1).
Proof.
  destruct (prebuild_import_failure_is_silent Samples.world_no_pipeline
              (Error "ModuleNotFoundError"
                 (lit "No module named 'RagFullPipeline'")) eq_refl)
    as [Ht Hs].
  specialize (Hs eq_refl).
  destruct (Prebuild.run Samples.world_no_pipeline) as [t z].
  simpl in *. subst. reflexivity.
Defined.

(** X14. Once [VectorStore] is imported, the driver prints "Vector store
    built successfully!" exactly when the store was built and counted
    without anything being raised; the line is never printed after a
    failure. *)
Theorem success_line_means_success (w : World) :
  import_from w ["VectorStore"]%string = Ok tt ->
  (In [Txt (lit "✅ Vector store built successfully!")]
      (Trace.printed (fst (Prebuild.run w))) <->
   exists vs n,
     new_VectorStore w (lit "./prebuilt_vector_store") true (Some (lit "."))
       = Ok vs /\
     collection_count w vs = Ok n).
Proof.
  intros Hi.
  unfold Prebuild.run, Prebuild.main, Prebuild.prebuild_vector_store,
    Prebuild.time_time, mtry, bind, emit, lift, sys_exit.
  rewrite Hi.
  assert (Hbanner :
    [Txt (lit "🚀 Pre-building vector store...")]
    <> [Txt (lit "✅ Vector store built successfully!")]).
  { intros H. vm_compute in H. discriminate. }
  assert (Hfail : forall (e : exc) (rest : list event),
    rest = [print [Txt (lit "❌ Error building vector store: ");
                   Txt (exc_str e)]] \/ rest = [] ->
    ~ In [Txt (lit "✅ Vector store built successfully!")]
         (Trace.printed
            (print [Txt (lit "🚀 Pre-building vector store...")] :: rest))).
  { intros e rest [-> | ->]; simpl; intros [H|H].
    - exact (Hbanner H).
    - destruct H as [H|[]]. discriminate.
    - exact (Hbanner H).
    - contradiction. }
  destruct (new_VectorStore w _ true _) as [vs|e]; simpl.
  - destruct (collection_count w vs) as [n|e] eqn:Hn; simpl.
    + split; [intros _; exists vs, n; auto|].
      intros _. right. left. reflexivity.
    + split.
      * intros H. exfalso.
        destruct (is_Exception e); simpl in H;
          [apply (Hfail e _ (or_introl eq_refl) H)
          |apply (Hfail e _ (or_intror eq_refl) H)].
      * intros (vs0 & n & H & Hn'). inversion H; subst. congruence.
  - split.
    + intros H. exfalso.
      destruct (is_Exception e); simpl in H;
        [apply (Hfail e _ (or_introl eq_refl) H)
        |apply (Hfail e _ (or_intror eq_refl) H)].
    + intros (vs0 & n & H & _). discriminate.
Qed.

Lemma success_line_means_success_witness :
  ~ In [Txt (lit "✅ Vector store built successfully!")]
       (Trace.printed (fst (Prebuild.run Samples.world_broken_store))) /\
  In [Txt (lit "✅ Vector store built successfully!")]
     (Trace.printed (fst (Prebuild.run Samples.world_empty_store))).
Proof.
  split.
  - intros H.
    apply (success_line_means_success Samples.world_broken_store eq_refl)
      in H.
    destruct H as (vs & n & H & _). discriminate.
  - apply (success_line_means_success Samples.world_empty_store eq_refl).
    exists (Samples.store_of []), 0. split; reflexivity.
Defined.

(** X15. A signal that is not an error ([KeyboardInterrupt],
    [SystemExit]) raised while the store is built passes through the
    driver: after the announcement nothing is printed, [sys.exit(1)] is not
    called, a single reading of the clock was made, and the signal itself
    ends the program.  The process then ends with status 130 for an
    interrupt, and with the code of a [SystemExit] whose code lies between
    0 and 255. *)
Theorem interrupted_build_passes_through (w : World) (e : exc) :
  import_from w ["VectorStore"]%string = Ok tt ->
  new_VectorStore w (lit "./prebuilt_vector_store") true (Some (lit "."))
    = Raise e ->
  is_Exception e = false ->
  Prebuild.main w 0%nat =
    (1%nat, [print [Txt (lit "🚀 Pre-building vector store...")]], Raise e) /\
  fst (Prebuild.run w) =
    [print [Txt (lit "🚀 Pre-building vector store...")]] /\
  (e = KeyboardInterrupt -> snd (Prebuild.run w) = 130) /\
  (forall code, e = SystemExit code -> 0 <= code < 256 ->
                snd (Prebuild.run w) = code).
Proof.
  intros Hi Hb He.
  unfold Prebuild.run, Prebuild.main, Prebuild.prebuild_vector_store,
    Prebuild.time_time, mtry, bind, emit, lift, sys_exit.
  rewrite Hi, Hb. simpl. rewrite He. simpl.
  split; [reflexivity|]. split; [reflexivity|].
  split; [intros ->; reflexivity | intros code -> _; reflexivity].
Qed.

Lemma interrupted_build_passes_through_witness :
  Prebuild.run MoreSamples.world_interrupted =
  ([print [Txt (lit "🚀 Pre-building vector store...")]], 130).
Proof.
  destruct (interrupted_build_passes_through MoreSamples.world_interrupted
              KeyboardInterrupt eq_refl eq_refl eq_refl)
    as (_ & Ht & Hk & _).
  specialize (Hk eq_refl).
  destruct (Prebuild.run MoreSamples.world_interrupted) as [t z].
  simpl in *. subst. reflexivity.
Defined.

(** ** The first run *)

(** X16. The first run of a session in which the components load, no
    store is to be had and the LLM answers: the system is initialised, the
    store is looked for and the question is answered in that same run.  The
    session keeps the two components and nothing else, and the page shows,
    in this order, the two status messages, the answer of the LLM and the
    metric of 0.8; no source is listed. *)
Theorem first_run_answers (w : World) (u : UI) (s : session) (l : LLM)
    (em : EmbeddingManager) (status : option str) (notice : str)
    (response : Response) :
  rag_initialized s = false -> vector_store_ready s = false ->
  retriever s = None ->
  initialize_minimal_rag w = Ok (Some l, Some em, status) ->
  load_vector_store_lazy w = Ok (None, notice) ->
  get_legal_answer u = true -> strip (query u) <> [] ->
  import_from w ["rag_advanced"]%string = Ok tt ->
  llm_invoke w l (llm_only_prompt (query u)) = Ok response ->
  script w u s =
  (keep_components l em s,
   [st_header (lit "📊 System Status");
    st_spinner (lit "Loading AI components...");
    st_success (lit "✅ AI System Ready");
    st_spinner (lit "Loading legal database...");
    st_info (lit "💡 Using AI-only mode");
    st_header (lit "⚙️ Settings");
    st_subheader (lit "🔍 Ask a Legal Question");
    st_spinner (lit "🔍 Researching legal sources...");
    invoke l (llm_only_prompt (query u));
    st_markdown (lit "### 📝 Legal Analysis");
    st_markdown
      (lit "<div class=" ++ [34%N] ++ lit "response-box" ++ [34%N]
       ++ lit ">");
    st_write (content response);
    st_markdown (lit "</div>");
    st_metric (lit "Confidence Score") [Fmt ".2%" 0.8%Q]],
   Ok (Some {| answer := content response; sources := [];
               confidence := 0.8%Q |})).
Proof.
  intros Hi Hv Hr Hinit Hload Hb Hq Himp Hinv.
  rewrite script_unfold.
  assert (Hside : sidebar_status w s =
    (keep_components l em s,
     [st_header (lit "📊 System Status");
      st_spinner (lit "Loading AI components...");
      st_success (lit "✅ AI System Ready");
      st_spinner (lit "Loading legal database...");
      st_info (lit "💡 Using AI-only mode")], Ok tt)).
  { unfold sidebar_status, bind, emit, lift, get, ret, modify.
    rewrite Hi. simpl. rewrite Hinit. simpl. rewrite Hv. simpl.
    rewrite Hload. reflexivity. }
  rewrite Hside.
  unfold handle_query. rewrite Hb.
  destruct (strip (query u)) as [|c q']; [contradiction|]. simpl.
  unfold bind at 1, get at 1. simpl.
  unfold mtry, research, show_result, bind, emit, lift, get, ret,
    session_attr.
  rewrite Himp. simpl. rewrite Hr. simpl. rewrite Hinv. reflexivity.
Qed.

Lemma first_run_answers_witness :
  exists t,
    script Samples.world_no_store (Samples.ask "What is negligence?")
      fresh_session =
    (Samples.ready_session, t,
     Ok (Some {| answer := lit "Answer of the LLM."; sources := [];
                 confidence := 0.8%Q |})) /\
    length t = 14%nat.
Proof.
  eexists. split.
  - apply (first_run_answers Samples.world_no_store
             (Samples.ask "What is negligence?") fresh_session
             Samples.the_llm Samples.the_manager
             (Some (lit "Components loaded"))
             (lit "No legal database available")
             {| content := lit "Answer of the LLM." |});
      try reflexivity.
    vm_compute. discriminate.
  - reflexivity.
Defined.

(** ** The components over a visit *)

(** X17. However a visit goes, a session that says it is initialised
    holds its LLM and its embedding manager: the three keys are set
    together and never taken away, so the handler never finds the LLM
    missing. *)
Theorem visits_keep_the_components (runs : list (World * UI * clicks)) :
  Trace.components_held (state (fst (visit runs fresh_page))).
Proof.
  assert (H : forall p, Trace.components_held (state p) ->
                        Trace.components_held (state (fst (visit runs p)))).
  { induction runs as [|[[w u] c] rest IH]; intros p Hp; simpl.
    - exact Hp.
    - destruct (page_script w u c p) as [[p1 t] r] eqn:Hrun.
      apply page_script_inv in Hrun as (s1 & t1 & r1 & Hscript & Hs & _).
      apply script_frame in Hscript as (_ & _ & Hc & _).
      assert (Hp1 : Trace.components_held (state p1)).
      { destruct Hs as [->| ->]; [exact (Hc Hp)|].
        exact (Hc Hp). }
      specialize (IH p1 Hp1).
      destruct (visit rest p1) as [p2 outs]. exact IH. }
  apply H. intros Hi. discriminate.
Qed.


